(** * python-lastfm: identity registry, property cache, lazy depagination

    A shallow embedding of [lastfm/user.py] and [lastfm/venue.py].  Python
    objects are records, dictionaries are finite maps, [None] is the [None]
    of [option], exceptions are the [Err] branch of [outcome], and every
    effect (a request sent to the web service, an attribute written on an
    instance, a lazy list advanced) is a transition of an explicit [State]. *)

From Stdlib Require Import ZArith String Ascii List Bool Lia.
From stdpp Require Import base gmap strings list.

Local Open Scope string_scope.
Local Open Scope Z_scope.

(** ** Python values *)

Module Py.

(** The scalar values the source stores in identity fields and request
    parameters: [int] (a C long in Python 2) and [str].  A possibly-[None]
    value is an [option value].  ([None] and instances hash by their
    address or by a [__hash__] of their own, not by a value; the keyword
    arguments hashed below hold [int]s and [str]s.) *)
Inductive value :=
| PyInt (n : Z)
| PyStr (s : string).

#[global] Instance value_eq_dec : EqDecision value.
Proof. solve_decision. Defined.

(** The builtin [hash] is that of CPython 2 on a 64-bit build (the source
    is Python 2: [xrange]), without hash randomisation.

    A C long: two's complement wrap-around. *)
Definition wrap64 (x : Z) : Z := (x + 2 ^ 63) mod 2 ^ 64 - 2 ^ 63.

(** A hash function of the interpreter never answers -1 (the error code of
    the C slot); -2 stands in for it. *)
Definition not_minus_one (x : Z) : Z := if x =? -1 then -2 else x.

(** [hash(n)] for an [int]. *)
Definition int_hash (n : Z) : Z := not_minus_one (wrap64 n).

Definition ord (c : ascii) : Z := Z.of_N (N_of_ascii c).

(** The multiply-and-xor loop of [hash(s)] for a [str]. *)
Fixpoint str_hash_loop (x : Z) (s : string) : Z :=
  match s with
  | EmptyString => x
  | String c s' => str_hash_loop (Z.lxor (wrap64 (1000003 * x)) (ord c)) s'
  end.

Definition str_hash (s : string) : Z :=
  match s with
  | EmptyString => 0
  | String c _ =>
      not_minus_one
        (Z.lxor (str_hash_loop (Z.shiftl (ord c) 7) s) (Z.of_nat (String.length s)))
  end.

(** The builtin [hash]. *)
Definition hash (v : value) : Z :=
  match v with
  | PyInt n => int_hash n
  | PyStr s => str_hash s
  end.

(** [a == b]: values of different types are never equal. *)
Definition eqb (a b : value) : bool :=
  match a, b with
  | PyInt x, PyInt y => x =? y
  | PyStr x, PyStr y => String.eqb x y
  | _, _ => false
  end.

Fixpoint str_ltb (a b : string) : bool :=
  match a, b with
  | EmptyString, EmptyString => false
  | EmptyString, String _ _ => true
  | String _ _, EmptyString => false
  | String x a', String y b' =>
      if (ord x <? ord y) then true
      else if (ord y <? ord x) then false
      else str_ltb a' b'
  end.

(** [a < b] in Python 2: numbers sort before strings. *)
Definition ltb (a b : value) : bool :=
  match a, b with
  | PyInt x, PyInt y => x <? y
  | PyStr x, PyStr y => str_ltb x y
  | PyInt _, PyStr _ => true
  | PyStr _, PyInt _ => false
  end.

(** The same two comparisons on values that may be [None]; [None] equals
    only itself and sorts before everything else. *)
Definition opt_eqb (a b : option value) : bool :=
  match a, b with
  | None, None => true
  | Some x, Some y => eqb x y
  | _, _ => false
  end.

Definition opt_ltb (a b : option value) : bool :=
  match a, b with
  | None, Some _ => true
  | Some x, Some y => ltb x y
  | _, None => false
  end.

(** Truth value, as tested by [if not self.name]. *)
Definition truthy (a : option value) : bool :=
  match a with
  | None => false
  | Some (PyInt n) => negb (n =? 0)
  | Some (PyStr s) => negb (String.eqb s "")
  end.

End Py.

Export Py(value, PyInt, PyStr).

(** ** Exceptions *)

(** Modelled from the spec: the exception classes of [lastfm/error.py],
    which is not among the sources.  The source names [LastfmError],
    [InvalidParametersError] and [AuthenticationFailedError]; the spec
    names [FetchError], the failure of a request to the web service, and
    [AuthenticationRequiredError], the refusal of the authentication gate.
    [IndexError], [KeyError] and [TypeError] are the builtins raised by
    [lst[0]] on an empty list, by [d[k]] on a missing key and by [len(x)]
    on an object without a length; [ValueError] is raised by [int(s)] on
    a text that is no number, [AttributeError] by [x.attrib] and
    [x.findall] when [x] is [None]. *)
Inductive error :=
| InvalidParametersError (msg : string)
| AuthenticationFailedError
| AuthenticationRequiredError
| FetchError (code : Z)
| IndexError
| KeyError (key : string)
| TypeError
| ValueError
| AttributeError.

(** [except LastfmError] catches the errors of the library, not builtins. *)
Definition is_LastfmError (e : error) : bool :=
  match e with
  | IndexError | KeyError _ | TypeError | ValueError | AttributeError => false
  | _ => true
  end.

Inductive outcome (A : Type) :=
| Ok (a : A)
| Err (e : error).
Arguments Ok {A} a.
Arguments Err {A} e.

(** Keyword arguments of a call. *)
Abbreviation kwargs := (gmap string value).

(** ** Entities *)

(** The fields [init] stores.  [oid] is the identity of the Python object:
    the property cache writes its attributes under it. *)
Record stats := {
  stats_match : option value;
  stats_weight : option value;
  stats_playcount : option value
}.

Record user := {
  user_oid : nat;
  user_name : option value;
  user_real_name : option value;
  user_url : option value;
  user_image : option (gmap string string);
  user_stats : option stats
}.

Record venue := {
  venue_oid : nat;
  venue_id : option value;
  venue_name : option value;
  venue_location : option string;
  venue_url : option value
}.

(** [User.Library(api, user)]. *)
Record library := {
  library_oid : nat;
  library_user : user
}.

(** [User.Playlist]. *)
Record playlist := {
  playlist_oid : nat;
  playlist_id : option value
}.

(** [lastfm.artist.Artist], [lastfm.track.Track] and [lastfm.album.Album],
    as far as the source reads them ([x.name], [x.artist.name]). *)
Record artist := { artist_name : option value }.
Record track := { track_name : option value; track_artist : artist }.
Record album := { album_name : option value; album_artist : artist }.

(** ** Requests and answers *)

(** A value of the [params] dictionary. *)
Inductive param :=
| PNone
| PVal (v : value)
| PArtist (a : artist).

Definition of_opt (o : option value) : param :=
  match o with Some v => PVal v | None => PNone end.

Abbreviation params := (gmap string param).

(** [_fetch_data(params, sign = False, session = False, no_cache = False)]. *)
Record request := {
  req_params : params;
  req_sign : bool;
  req_session : bool;
  req_no_cache : bool
}.

(** One record of an answer (an XML element), opaque here. *)
Definition element : Type := string.

(** The attribute [totalPages] of a container: missing, a text that
    [int()] refuses, or a number. *)
Inductive attribute :=
| Missing
| NotANumber
| Number (n : Z).

(** The container of an answer: its attribute [totalPages] and its child
    records.  What [.find(container)] gives on the answer to a request is
    an [option page]: [None] when the answer has no such container. *)
Record page := {
  totalPages : attribute;
  children : list element
}.

(** A domain object made from an answer by a factory of another module:
    [cls.create_from_data(api, e)] or [cls(api, ...)] for one record, a
    [WeeklyChart] with its bounds, a chart made from a whole answer. *)
Inductive item :=
| Built (cls : string) (e : element)
| Week (start end_ : option value)
| Chart (cls : string) (d : option page).

Definition week_start (wc : item) : option value :=
  match wc with Week s _ => s | _ => None end.
Definition week_end (wc : item) : option value :=
  match wc with Week _ e => e | _ => None end.

(** ** Generators *)

(** The generator functions of the source, each with the variables it
    closes over.  A page function is a generator function under
    [@depaginate]: called with a page number, it yields the total page
    count and then the items of that page. *)
Inductive page_fn :=
| UserPastEvents (self : user) (limit : option value)
| UserRecommendedEvents (self : user) (limit : option value)
| UserRecommendedArtists (self : user)
| LibraryAlbums (self : library) (limit : option value)
| LibraryArtists (self : library) (limit : option value)
| LibraryTracks (self : library) (limit : option value).

(** What a paged listing fetches its pages with: a page function, or the
    loop written out in [Venue.get_past_events] over its [params]. *)
Inductive pages_of :=
| PageFn (f : page_fn)
| VenueGen (prms : params).

Inductive chart_kind := AlbumChart | ArtistChart | TrackChart | TagChart.

(** Where a paged listing stands: nothing fetched yet; the unread items of
    the current page and the page numbers still to fetch; the last page
    read; a fetch failed. *)
Inductive pager_state :=
| Init
| FetchingPage (buf : list item) (pages : list Z)
| Exhausted
| Failed (e : error).

Inductive generator :=
| Paged (f : pages_of) (st : pager_state)
| Weekly (k : chart_kind) (self : user) (todo : list item).

(** A lazy list: the items produced so far and the generator that makes the
    rest. *)
Record lazylist := {
  seen : list item;
  gen : generator
}.

(** What a property of an instance evaluates to. *)
Inductive computed :=
| CList (l : list item)
| CLazy (loc : nat)
| CItem (i : item).

(** ** The state of the program *)

(** [fetch_log] and [post_log] record the calls of [_fetch_data] and
    [_post_data] in order; [attrs] holds the attributes written on
    instances after [init] (an attribute bound to [None] is [Some None]);
    [heap] holds the lazy lists, each referred to by its position. *)
Record State := {
  fetch_log : list request;
  post_log : list params;
  attrs : gmap (nat * string) (option computed);
  heap : list lazylist
}.

Definition M (A : Type) : Type := State → outcome A * State.

Definition ret {A} (a : A) : M A := fun s => (Ok a, s).
Definition raise {A} (e : error) : M A := fun s => (Err e, s).
Definition bind {A B} (m : M A) (k : A → M B) : M B :=
  fun s => match m s with
           | (Ok a, s') => k a s'
           | (Err e, s') => (Err e, s')
           end.
Definition lift {A} (o : outcome A) : M A := fun s => (o, s).

Notation "'let*' x ':=' m 'in' k" := (bind m (fun x => k))
  (at level 10, x name, m at level 100, k at level 200).
Notation "'do' m 'then' k" := (bind m (fun _ => k))
  (at level 10, m at level 100, k at level 200).

(** [try: body except LastfmError: handler]. *)
Definition try_except_LastfmError {A} (body handler : M A) : M A :=
  fun s => match body s with
           | (Err e, s') => if is_LastfmError e then handler s' else (Err e, s')
           | r => r
           end.

Definition log_fetch (reqs : list request) (s : State) : State :=
  {| fetch_log := fetch_log s ++ reqs; post_log := post_log s;
     attrs := attrs s; heap := heap s |}.
Definition log_post (p : params) (s : State) : State :=
  {| fetch_log := fetch_log s; post_log := post_log s ++ [p];
     attrs := attrs s; heap := heap s |}.
Definition set_attrs (a : gmap (nat * string) (option computed)) (s : State) : State :=
  {| fetch_log := fetch_log s; post_log := post_log s;
     attrs := a; heap := heap s |}.
Definition set_heap (h : list lazylist) (s : State) : State :=
  {| fetch_log := fetch_log s; post_log := post_log s;
     attrs := attrs s; heap := h |}.

(** [setattr(ob, name, v)]. *)
Definition setattr (ob : nat) (name : string) (v : option computed) : M unit :=
  fun s => (Ok tt, set_attrs (<[(ob, name) := v]> (attrs s)) s).

(** ** The API client *)

(** [lastfm.api.Api] is the collaborator: what the web service answers to
    a request (given as what [.find(container)] finds in the answer),
    whether a session is open, and the helpers of other modules the source
    calls.  A helper that sends requests of its own is given by the
    requests it sends and its outcome. *)
Record Api := {
  server : request → outcome (option page);
  post_server : params → outcome unit;
  has_authenticated_session : bool;
  authenticated_user : list request * outcome user;
  user_of_info : option page → outcome user;
  track_search : value → list request * outcome (list track);
  album_search : value → list request * outcome (list album);
  check_weekly_chart_params :
    params → option value → option value → outcome params;
  weekly_chart_bounds : element → option value * option value;
  weekly_tag_chart :
    user → option value → option value → list request * outcome item;
  tasteometer_compare :
    option value → option value → option value → list request * outcome item
}.

Definition _fetch_data (api : Api) (p : params) (sign session no_cache : bool)
  : M (option page) :=
  fun s =>
    let r := {| req_params := p; req_sign := sign;
                req_session := session; req_no_cache := no_cache |} in
    (server api r, log_fetch [r] s).

Definition _post_data (api : Api) (p : params) : M unit :=
  fun s => (post_server api p, log_post p s).

(** A new lazy list over the generator [g]; nothing is produced yet. *)
Definition new_lazylist (g : generator) : M nat :=
  fun s => (Ok (length (heap s)), set_heap (heap s ++ [{| seen := []; gen := g |}]) s).

(** A helper of the client that sends its own requests. *)
Definition helper {A} (h : list request * outcome A) : M A :=
  fun s => (snd h, log_fetch (fst h) s).

Definition get_authenticated_user (api : Api) : M user :=
  helper (authenticated_user api).
Definition search_track (api : Api) (q : value) : M (list track) :=
  helper (track_search api q).
Definition search_album (api : Api) (q : value) : M (list album) :=
  helper (album_search api q).

(** ** Functions of the source, as written under their decorators *)

Definition str (s : string) : param := PVal (PyStr s).

(** [if v is not None: params.update({key: v})]. *)
Definition update_opt (key : string) (v : option value) (p : params) : params :=
  match v with
  | Some x => <[key := PVal x]> p
  | None => p
  end.

(** [int(data.attrib['totalPages'])], [data] being what [.find] gave. *)
Definition total_pages (data : option page) : outcome Z :=
  match data with
  | None => Err AttributeError
  | Some d =>
      match totalPages d with
      | Missing => Err (KeyError "totalPages")
      | NotANumber => Err ValueError
      | Number n => Ok n
      end
  end.

(** [data.findall(record)]. *)
Definition findall (data : option page) : outcome (list element) :=
  match data with
  | None => Err AttributeError
  | Some d => Ok (children d)
  end.

(** What a page function yields. *)
Inductive yielded :=
| YTotal (n : Z)
| YItem (i : item).

(** The part every page function shares: fetch, [yield total_pages], then
    one item per record. *)
Definition page_body (api : Api) (p : params) (sign session : bool) (cls : string)
  : M (list yielded) :=
  let* data := _fetch_data api p sign session false in
  let* total := lift (total_pages data) in
  let* records := lift (findall data) in
  ret (YTotal total :: map (fun e => YItem (Built cls e)) records).

(** The part every plain listing shares: fetch, then one item per record. *)
Definition fetch_list (api : Api) (p : params) (no_cache : bool) (mk : element → item)
  : M (list item) :=
  let* data := _fetch_data api p false false no_cache in
  let* records := lift (findall data) in
  ret (map mk records).

(** [hash(kwds[field])], [KeyError] turned into a parameter error: the body
    of every [_hash_func]. *)
Definition hash_of_field (field msg : string) (kwds : kwargs) : outcome Z :=
  match kwds !! field with
  | Some v => Ok (Py.hash v)
  | None => Err (InvalidParametersError msg)
  end.

(** The arguments of the [add_*] methods: the work is a [Track] (an
    [Album]) or its name, the artist is [None], an [Artist] or a name. *)
Inductive artist_arg := ArtistObj (a : artist) | ArtistName (v : value).

(** [isinstance(artist, Artist) and artist.name or artist]. *)
Definition artist_param (a : artist_arg) : param :=
  match a with
  | ArtistObj a => if Py.truthy (artist_name a) then of_opt (artist_name a) else PArtist a
  | ArtistName v => PVal v
  end.

(** The branches that fill [params['artist']] and [params[key]], shared by
    [add_track] and [add_album]:
    [if isinstance(x, W): ... else: if artist is None: x = search(x)[0] ...
     else: ...]. *)
Definition work_params {W} (key : string) (name_of : W → option value)
    (artist_of : W → artist) (search : value → M (list W))
    (x : W + value) (art : option artist_arg) (p : params) : M params :=
  let of_work w := <[key := of_opt (name_of w)]>
                     (<["artist" := of_opt (artist_name (artist_of w))]> p) in
  match x with
  | inl w => ret (of_work w)
  | inr v =>
      match art with
      | None =>
          let* found := search v in
          let* w := lift (match found with w :: _ => Ok w | [] => Err IndexError end) in
          ret (of_work w)
      | Some a => ret (<[key := PVal v]> (<["artist" := artist_param a]> p))
      end
  end.

Module User.

Definition name := user_name.
Definition real_name := user_real_name.
Definition url := user_url.
Definition image := user_image.
Definition stats := user_stats.

Definition _default_params (self : user) (extra_params : option params) : outcome params :=
  if negb (Py.truthy (name self))
  then Err (InvalidParametersError "user has to be provided.")
  else
    let p : params := {["user" := of_opt (name self)]} in
    Ok (match extra_params with Some e => e ∪ p | None => p end).

Definition method_params (self : user) (method : string) : outcome params :=
  _default_params self (Some {["method" := str method]}).

Definition _hash_func (args : list value) (kwds : kwargs) : outcome Z :=
  hash_of_field "name" "name has to be provided for hashing" kwds.

Definition __eq__ (self other : user) : bool := Py.opt_eqb (name self) (name other).
Definition __lt__ (self other : user) : bool := Py.opt_ltb (name self) (name other).

(** [authenticated]: [AuthenticationFailedError] means "no". *)
Definition authenticated (api : Api) (self : user) : M bool :=
  fun s =>
    match get_authenticated_user api s with
    | (Ok auth_user, s') => (Ok (__eq__ auth_user self), s')
    | (Err AuthenticationFailedError, s') => (Ok false, s')
    | (Err e, s') => (Err e, s')
    end.

(** A listing that is one request: [method], an optional parameter, and
    the class of the items. *)
Definition listing (api : Api) (self : user) (method : string)
    (key : string) (v : option value) (no_cache : bool) (cls : string) : M (list item) :=
  let* p := lift (method_params self method) in
  fetch_list api (update_opt key v p) no_cache (Built cls).

Definition events api self :=
  listing api self "user.getEvents" "" None false "Event".
Definition get_friends api self limit :=
  listing api self "user.getFriends" "limit" limit false "User".
Definition get_neighbours api self limit :=
  listing api self "user.getNeighbours" "limit" limit false "User".
Definition playlists api self :=
  listing api self "user.getPlaylists" "" None false "User.Playlist".
Definition loved_tracks api self :=
  listing api self "user.getLovedTracks" "" None false "Track".
Definition get_recent_tracks api self limit :=
  listing api self "user.getRecentTracks" "limit" limit true "Track".
Definition get_top_albums api self period :=
  listing api self "user.getTopAlbums" "period" period false "Album".
Definition get_top_artists api self period :=
  listing api self "user.getTopArtists" "period" period false "Artist".
Definition get_top_tracks api self period :=
  listing api self "user.getTopTracks" "period" period false "Track".
Definition get_top_tags api self limit :=
  listing api self "user.getTopTags" "limit" limit false "Tag".

Definition weekly_chart_list (api : Api) (self : user) : M (list item) :=
  let* p := lift (method_params self "user.getWeeklyChartList") in
  fetch_list api p false
    (fun c => Week (fst (weekly_chart_bounds api c)) (snd (weekly_chart_bounds api c))).

(** The page functions (generator functions under [@depaginate]). *)
Definition get_past_events api self (limit page : option value) : M (list yielded) :=
  let* p := lift (method_params self "user.getPastEvents") in
  page_body api (update_opt "page" page (update_opt "limit" limit p)) false false "Event".

Definition get_recommended_events api (self : user) (limit page : option value)
  : M (list yielded) :=
  let p : params := {["method" := str "user.getRecommendedEvents"]} in
  page_body api (update_opt "page" page (update_opt "limit" limit p)) true true "Event".

Definition recommended_artists api (self : user) (page : option value) : M (list yielded) :=
  let p : params := {["method" := str "user.getRecommendedArtists"]} in
  page_body api (update_opt "page" page p) true true "Artist".

(** [get_weekly_album_chart], [get_weekly_artist_chart] and
    [get_weekly_track_chart] differ by the method and the class only. *)
Definition get_weekly_chart api self (method cls : string) (start end_ : option value)
  : M item :=
  let* p := lift (method_params self method) in
  let* p := lift (check_weekly_chart_params api p start end_) in
  let* data := _fetch_data api p false false false in
  ret (Chart cls data).

Definition get_weekly_album_chart api self start end_ :=
  get_weekly_chart api self "user.getWeeklyAlbumChart" "WeeklyAlbumChart" start end_.
Definition get_weekly_artist_chart api self start end_ :=
  get_weekly_chart api self "user.getWeeklyArtistChart" "WeeklyArtistChart" start end_.
Definition get_weekly_track_chart api self start end_ :=
  get_weekly_chart api self "user.getWeeklyTrackChart" "WeeklyTrackChart" start end_.
Definition get_weekly_tag_chart api self (start end_ : option value) : M item :=
  do lift (check_weekly_chart_params api ∅ start end_) then
  helper (weekly_tag_chart api self start end_).

(** The body of the loop of [weekly_*_chart_list]. *)
Definition get_chart_of_kind api self (k : chart_kind) :=
  match k with
  | AlbumChart => get_weekly_album_chart api self
  | ArtistChart => get_weekly_artist_chart api self
  | TrackChart => get_weekly_track_chart api self
  | TagChart => get_weekly_tag_chart api self
  end.

(** [compare]: [Tasteometer.compare(api, 'user', 'user', self.name, other,
    limit)], [other] being a user, whose name is passed, or a name. *)
Definition compare api (self : user) (other : user + value) (limit : option value)
  : M item :=
  let other := match other with inl u => name u | inr v => Some v end in
  helper (tasteometer_compare api (name self) other limit).

(** The static [get_authenticated_user(api)]: one signed request made
    for the session.  The lines after it read the answer with [findtext]
    and build the user with the constructors of [lastfm/base.py],
    [lastfm/geo.py] ([Country.ISO_CODES]) and [lastfm/stats.py], which
    are not among the sources: [user_of_info] of the client stands for
    them. *)
Definition get_authenticated_user (api : Api) : M user :=
  let* data := _fetch_data api {["method" := str "user.getInfo"]} true true false in
  lift (user_of_info api data).

(** [create_playlist], under [@authenticate]. *)
Definition create_playlist api (self : user) (title : value) (description : option value)
  : M unit :=
  let p : params := {["method" := str "playlist.create"; "title" := PVal title]} in
  let p := update_opt "description" description p in
  do _post_data api p then
  setattr (user_oid self) "_playlists" None.

Module Playlist.

Definition id := playlist_id.

(** [add_track], under [@authenticate]. *)
Definition add_track api (self : playlist) (trk : track + value) (art : option artist_arg)
  : M unit :=
  let p : params :=
    {["method" := str "playlist.addTrack"; "playlistID" := of_opt (id self)]} in
  let* p := work_params "track" track_name track_artist (search_track api) trk art p in
  do _post_data api p then
  setattr (playlist_oid self) "_data" None.

Definition _hash_func (args : list value) (kwds : kwargs) : outcome Z :=
  hash_of_field "id" "id has to be provided for hashing" kwds.

End Playlist.

Module Library.

Definition user := library_user.

Definition _default_params (self : library) (extra_params : option params) : outcome params :=
  if negb (Py.truthy (name (user self)))
  then Err (InvalidParametersError "user has to be provided.")
  else
    let p : params := {["user" := of_opt (name (user self))]} in
    Ok (match extra_params with Some e => e ∪ p | None => p end).

(** [get_albums], [get_artists] and [get_tracks]: the fetch and the yields
    are inside [try: ... except LastfmError: return]. *)
Definition get_page api self (method cls : string) (limit page : option value)
  : M (list yielded) :=
  let* p := lift (_default_params self (Some {["method" := str method]})) in
  try_except_LastfmError
    (page_body api (update_opt "page" page (update_opt "limit" limit p)) false false cls)
    (ret []).

Definition get_albums api self := get_page api self "library.getAlbums" "Album".
Definition get_artists api self := get_page api self "library.getArtists" "Artist".
Definition get_tracks api self := get_page api self "library.getTracks" "Track".

(** [add_album], [add_artist] and [add_track], each under
    [@authenticate]. *)
Definition add_album api (self : library) (alb : album + value) (art : option artist_arg)
  : M unit :=
  let p : params := {["method" := str "library.addAlbum"]} in
  let* p := work_params "album" album_name album_artist (search_album api) alb art p in
  do _post_data api p then
  setattr (library_oid self) "_albums" None.

Definition add_artist api (self : library) (art : artist_arg) : M unit :=
  let p : params := {["method" := str "library.addArtist"]} in
  let p : params :=
    <["artist" := match art with
                  | ArtistObj a => of_opt (artist_name a)
                  | ArtistName v => PVal v
                  end]> p in
  do _post_data api p then
  setattr (library_oid self) "_artists" None.

Definition add_track api (self : library) (trk : track + value) (art : option artist_arg)
  : M unit :=
  let p : params := {["method" := str "library.addTrack"]} in
  let* p := work_params "track" track_name track_artist (search_track api) trk art p in
  do _post_data api p then
  setattr (library_oid self) "_tracks" None.

End Library.

End User.

Module Venue.

Definition id := venue_id.
Definition name := venue_name.
Definition location := venue_location.
Definition url := venue_url.

Definition _default_params (self : venue) (extra_params : params) : outcome params :=
  if negb (Py.truthy (id self))
  then Err (InvalidParametersError "venue id has to be provided.")
  else Ok (extra_params ∪ {["venue" := of_opt (id self)]}).

Definition events (api : Api) (self : venue) : M (list item) :=
  let* p := lift (_default_params self {["method" := str "venue.getEvents"]}) in
  fetch_list api p false (Built "Event").

(** [gen2(data)], read to its end. *)
Definition gen2 (data : option page) : outcome (list item) :=
  match findall data with
  | Ok records => Ok (map (Built "Event") records)
  | Err e => Err e
  end.

(** The generator [gen] of [get_past_events] up to its first loop: the
    first request, the total page count, the items of the first answer. *)
Definition gen_first (api : Api) (p : params) : M (Z * list item) :=
  let* data := _fetch_data api p false false false in
  let* total := lift (total_pages data) in
  let* events := lift (gen2 data) in
  ret (total, events).

(** One round of [for page in xrange(2, total_pages+1)].  The source
    updates the one [params] dictionary in place; from one round to the
    next only its key [page] changes, and it is set here. *)
Definition gen_page (api : Api) (p : params) (n : Z) : M (list item) :=
  let* data := _fetch_data api (<["page" := PVal (PyInt n)]> p) false false false in
  lift (gen2 data).

Definition get_past_events (api : Api) (self : venue) (limit : option value) : M nat :=
  let* p := lift (_default_params self {["method" := str "venue.getPastEvents"]}) in
  new_lazylist (Paged (VenueGen (update_opt "limit" limit p)) Init).

Definition _hash_func (args : list value) (kwds : kwargs) : outcome Z :=
  hash_of_field "url" "url has to be provided for hashing" kwds.

Definition __eq__ (self other : venue) : bool := Py.opt_eqb (url self) (url other).
Definition __lt__ (self other : venue) : bool := Py.opt_ltb (name self) (name other).

End Venue.

(** ** Lazy lists and depagination *)

(** [xrange(lo, hi)]. *)
Definition xrange (lo hi : Z) : list Z := seqZ lo (hi - lo).

(** What [next()] on a generator does. *)
Inductive step :=
| Yield (x : item)
| StopIteration
| Raise (e : error).

Module Depaginate.

(** Calling a page function of the source with a page number. *)
Definition call (api : Api) (f : page_fn) (pg : option value) : M (list yielded) :=
  match f with
  | UserPastEvents self limit => User.get_past_events api self limit pg
  | UserRecommendedEvents self limit => User.get_recommended_events api self limit pg
  | UserRecommendedArtists self => User.recommended_artists api self pg
  | LibraryAlbums self limit => User.Library.get_albums api self limit pg
  | LibraryArtists self limit => User.Library.get_artists api self limit pg
  | LibraryTracks self limit => User.Library.get_tracks api self limit pg
  end.

Definition items_of (ys : list yielded) : list item :=
  omap (fun y => match y with YItem i => Some i | YTotal _ => None end) ys.

(** Modelled from the spec: the [depaginate] decorator of
    [lastfm/decorators.py], which is not among the sources, as far as it
    calls the page function.  The first value the page function yields is
    the total page count, which is used from page 1 only; the rest are the
    items of the page.  A page function that returns without yielding ends
    the listing. *)
Definition page_one (api : Api) (f : page_fn) : M (option (Z * list item)) :=
  let* ys := call api f None in
  ret (match ys with
       | YTotal n :: rest => Some (n, items_of rest)
       | _ => None
       end).

Definition page_after (api : Api) (f : page_fn) (n : Z) : M (option (list item)) :=
  let* ys := call api f (Some (PyInt n)) in
  ret (match ys with
       | _ :: rest => Some (items_of rest)
       | [] => None
       end).

(** The first page and a later page of a listing: by the generator written
    in [Venue.get_past_events], or by a page function. *)
Definition first_page (api : Api) (src : pages_of) : M (option (Z * list item)) :=
  match src with
  | VenueGen p => let* r := Venue.gen_first api p in ret (Some r)
  | PageFn f => page_one api f
  end.

Definition later_page (api : Api) (src : pages_of) (n : Z) : M (option (list item)) :=
  match src with
  | VenueGen p => let* r := Venue.gen_page api p n in ret (Some r)
  | PageFn f => page_after api f n
  end.

(** Fetch the pages of [pages] in turn until one has an item. *)
Fixpoint refill (api : Api) (f : pages_of) (pages : list Z) (s : State)
  : step * pager_state * State :=
  match pages with
  | [] => (StopIteration, Exhausted, s)
  | n :: rest =>
      match later_page api f n s with
      | (Ok (Some (x :: xs)), s') => (Yield x, FetchingPage xs rest, s')
      | (Ok (Some []), s') => refill api f rest s'
      | (Ok None, s') => (StopIteration, Exhausted, s')
      | (Err e, s') => (Raise e, Failed e, s')
      end
  end.

Definition advance (api : Api) (f : pages_of) (buf : list item) (pages : list Z) (s : State)
  : step * pager_state * State :=
  match buf with
  | x :: xs => (Yield x, FetchingPage xs pages, s)
  | [] => refill api f pages s
  end.

(** One call of [next()]: the loop of [Venue.get_past_events] -- first
    answer, then [for page in xrange(2, total_pages+1)] -- which is also
    the state machine the spec gives for [depaginate]:
    [Init --fetch page 1--> FetchingPage],
    [FetchingPage --next page--> FetchingPage] while pages remain, then
    [Exhausted]; a failing fetch leads to [Failed].  (What a failed
    listing answers when it is asked again is not said anywhere; here it
    fails again, and no property below depends on it.) *)
Definition next (api : Api) (f : pages_of) (st : pager_state) (s : State)
  : step * pager_state * State :=
  match st with
  | Init =>
      match first_page api f s with
      | (Ok (Some (total, items)), s') => advance api f items (xrange 2 (total + 1)) s'
      | (Ok None, s') => (StopIteration, Exhausted, s')
      | (Err e, s') => (Raise e, Failed e, s')
      end
  | FetchingPage buf pages => advance api f buf pages s
  | Exhausted => (StopIteration, Exhausted, s)
  | Failed e => (Raise e, Failed e, s)
  end.

End Depaginate.

(** The generator [gen] of [weekly_*_chart_list]:
    [for wc in wcl: try: yield get(wc.start, wc.end) except LastfmError: pass].
    A generator that raised is finished. *)
Fixpoint weekly_next (api : Api) (k : chart_kind) (self : user) (todo : list item) (s : State)
  : step * list item * State :=
  match todo with
  | [] => (StopIteration, [], s)
  | wc :: rest =>
      match User.get_chart_of_kind api self k (week_start wc) (week_end wc) s with
      | (Ok c, s') => (Yield c, rest, s')
      | (Err e, s') =>
          if is_LastfmError e then weekly_next api k self rest s'
          else (Raise e, [], s')
      end
  end.

Module LazyList.

(** Modelled from the spec: the lazy sequence of [lastfm/lazylist.py],
    which is not among the sources.  A lazy list keeps what its generator
    produced; reading it from the start replays [seen] and calls the
    generator for what comes after. *)
Definition next (api : Api) (g : generator) (s : State) : step * generator * State :=
  match g with
  | Paged f st =>
      let '(r, st', s') := Depaginate.next api f st s in (r, Paged f st', s')
  | Weekly k self todo =>
      let '(r, todo', s') := weekly_next api k self todo s in (r, Weekly k self todo', s')
  end.

(** Modelled from the spec: the materialisation loop of
    [lastfm/lazylist.py].  Run the generator to its end: the items it
    yields, the error that stopped it if one did, its last state.  [None] when [fuel] calls of
    [next] did not reach the end. *)
Fixpoint drain (api : Api) (fuel : nat) (g : generator) (s : State)
  : option (list item * option error * generator * State) :=
  match fuel with
  | O => None
  | S fuel' =>
      match next api g s with
      | (Yield x, g', s') =>
          match drain api fuel' g' s' with
          | Some (xs, e, g'', s'') => Some (x :: xs, e, g'', s'')
          | None => None
          end
      | (StopIteration, g', s') => Some ([], None, g', s')
      | (Raise e, g', s') => Some ([], Some e, g', s')
      end
  end.

(** Modelled from the spec: [as_list()] of [lastfm/lazylist.py], the full
    materialisation of the lazy list at [loc].  What
    was produced is kept even when the generator fails.  [None] when
    [fuel] is too small, or when [loc] refers to no lazy list. *)
Definition as_list (api : Api) (fuel : nat) (loc : nat) (s : State)
  : option (outcome (list item) * State) :=
  match heap s !! loc with
  | None => None
  | Some l =>
      match drain api fuel (gen l) s with
      | None => None
      | Some (xs, e, g', s') =>
          let all := (seen l ++ xs)%list in
          let s'' := set_heap (<[loc := {| seen := all; gen := g' |}]> (heap s')) s' in
          Some (match e with Some e => Err e | None => Ok all end, s'')
      end
  end.


End LazyList.

(** ** Decorators *)

Module Decorators.

(** Modelled from the spec: [cached_property] of [lastfm/decorators.py],
    which is not among the sources.  The first read computes the value and
    stores it on the instance; later reads return what is stored; a failed
    computation stores nothing.  The value of property [name] is kept in
    the attribute [_name], the one the source sets to [None] to invalidate
    it. *)
Definition cached_property (name : string) (compute : M computed) (ob : nat) : M computed :=
  fun s =>
    match attrs s !! (ob, String "_" name) with
    | Some (Some v) => (Ok v, s)
    | _ =>
        match compute s with
        | (Ok v, s') =>
            (Ok v, set_attrs (<[(ob, String "_" name) := Some v]> (attrs s')) s')
        | (Err e, s') => (Err e, s')
        end
    end.

(** Modelled from the spec: [authenticate] of [lastfm/decorators.py].  It
    asks the client whether a session is open before the wrapped operation
    starts, and refuses without running it when none is. *)
Definition authenticate {A} (api : Api) (op : M A) : M A :=
  fun s =>
    if has_authenticated_session api then op s
    else (Err AuthenticationRequiredError, s).

(** Modelled from the spec: [depaginate] of [lastfm/decorators.py].  The
    call makes the lazy list; no page is fetched before an item is asked
    for. *)
Definition depaginate (f : page_fn) : M nat :=
  new_lazylist (Paged (PageFn f) Init).

(** Modelled from the spec: [top_property] of [lastfm/decorators.py]:
    element 0 of the named collection, [None] when it is empty. *)
Definition top_property (collection : M (list item)) : M (option item) :=
  let* l := collection in
  ret (head l).

End Decorators.

Definition fmapM {A B} (f : A → B) (m : M A) : M B :=
  let* a := m in ret (f a).

(** Reading a property whose value the source uses as a list ([len(x)],
    [x[0]], [list(x)]); every such property of the source is computed as a
    list. *)
Definition as_collection (m : M computed) : M (list item) :=
  let* c := m in
  match c with
  | CList l => ret l
  | CLazy _ | CItem _ => raise TypeError
  end.

(** ** The decorated attributes of the classes *)

Module Decorated.
Import Decorators.

Module User.

Definition events api self :=
  cached_property "events" (fmapM CList (User.events api self)) (user_oid self).

Definition get_past_events (api : Api) self limit : M nat :=
  depaginate (UserPastEvents self limit).
Definition past_events api self :=
  cached_property "past_events" (fmapM CLazy (get_past_events api self None)) (user_oid self).

Definition get_recommended_events api self limit : M nat :=
  authenticate api (depaginate (UserRecommendedEvents self limit)).
Definition recommended_events api self :=
  cached_property "recommended_events"
    (fmapM CLazy (get_recommended_events api self None)) (user_oid self).

Definition friends api self :=
  cached_property "friends" (fmapM CList (User.get_friends api self None)) (user_oid self).
Definition neighbours api self :=
  cached_property "neighbours" (fmapM CList (User.get_neighbours api self None))
    (user_oid self).
Definition nearest_neighbour api self :=
  top_property (as_collection (neighbours api self)).

Definition playlists api self :=
  cached_property "playlists" (fmapM CList (User.playlists api self)) (user_oid self).
Definition loved_tracks api self :=
  cached_property "loved_tracks" (fmapM CList (User.loved_tracks api self)) (user_oid self).

(** [recent_tracks] is a plain [@property]: every read calls
    [get_recent_tracks()]. *)
Definition recent_tracks api self : M computed :=
  fmapM CList (User.get_recent_tracks api self None).
Definition most_recent_track api self :=
  top_property (as_collection (recent_tracks api self)).

Definition top_albums api self :=
  cached_property "top_albums" (fmapM CList (User.get_top_albums api self None))
    (user_oid self).
Definition top_album api self := top_property (as_collection (top_albums api self)).

Definition top_artists api self :=
  cached_property "top_artists" (fmapM CList (User.get_top_artists api self None))
    (user_oid self).
Definition top_artist api self := top_property (as_collection (top_artists api self)).

Definition recommended_artists api self :=
  cached_property "recommended_artists"
    (authenticate api (fmapM CLazy (depaginate (UserRecommendedArtists self))))
    (user_oid self).

Definition top_tracks api self :=
  cached_property "top_tracks" (fmapM CList (User.get_top_tracks api self None))
    (user_oid self).
Definition top_track api self := top_property (as_collection (top_tracks api self)).

(** The body written under [@top_property("top_tracks")]:
    [len(self.top_tracks) and self.top_tracks[0] or None]. *)
Definition top_track_body api self : M (option item) :=
  let* l := as_collection (top_tracks api self) in
  if (length l =? 0)%nat then ret None
  else let* l' := as_collection (top_tracks api self) in ret (head l').

Definition top_tags api self :=
  cached_property "top_tags" (fmapM CList (User.get_top_tags api self None)) (user_oid self).
Definition top_tag api self := top_property (as_collection (top_tags api self)).

Definition create_playlist api self title description : M unit :=
  authenticate api (User.create_playlist api self title description).

Definition weekly_chart_list api self :=
  cached_property "weekly_chart_list" (fmapM CList (User.weekly_chart_list api self))
    (user_oid self).

(** [weekly_album_chart_list] and its three siblings:
    [wcl = list(self.weekly_chart_list); wcl.reverse(); return gen()]. *)
Definition chart_list_name (k : chart_kind) : string :=
  match k with
  | AlbumChart => "weekly_album_chart_list"
  | ArtistChart => "weekly_artist_chart_list"
  | TrackChart => "weekly_track_chart_list"
  | TagChart => "weekly_tag_chart_list"
  end.

Definition weekly_chart_list_of (k : chart_kind) api self :=
  cached_property (chart_list_name k)
    (let* wcl := as_collection (weekly_chart_list api self) in
     fmapM CLazy (new_lazylist (Weekly k self (rev wcl))))
    (user_oid self).

Definition weekly_album_chart_list := weekly_chart_list_of AlbumChart.
Definition weekly_artist_chart_list := weekly_chart_list_of ArtistChart.
Definition weekly_track_chart_list := weekly_chart_list_of TrackChart.
Definition weekly_tag_chart_list := weekly_chart_list_of TagChart.

Module Playlist.

Definition add_track api self trk art : M unit :=
  authenticate api (User.Playlist.add_track api self trk art).

End Playlist.

Module Library.

Definition get_albums (api : Api) self limit : M nat := depaginate (LibraryAlbums self limit).
Definition albums api self :=
  cached_property "albums" (fmapM CLazy (get_albums api self None)) (library_oid self).

Definition get_artists (api : Api) self limit : M nat := depaginate (LibraryArtists self limit).
Definition artists api self :=
  cached_property "artists" (fmapM CLazy (get_artists api self None)) (library_oid self).

Definition get_tracks (api : Api) self limit : M nat := depaginate (LibraryTracks self limit).
Definition tracks api self :=
  cached_property "tracks" (fmapM CLazy (get_tracks api self None)) (library_oid self).

Definition add_album api self alb art : M unit :=
  authenticate api (User.Library.add_album api self alb art).
Definition add_artist api self art : M unit :=
  authenticate api (User.Library.add_artist api self art).
Definition add_track api self trk art : M unit :=
  authenticate api (User.Library.add_track api self trk art).

End Library.

End User.

Module Venue.

Definition events api self :=
  cached_property "events" (fmapM CList (Venue.events api self)) (venue_oid self).
Definition past_events api self :=
  cached_property "past_events" (fmapM CLazy (Venue.get_past_events api self None))
    (venue_oid self).

End Venue.

End Decorated.

(** ** The identity registry *)

Module Registry.

(** Modelled from the spec: the flyweight registry of [lastfm/base.py],
    which is not among the sources.  It maps the key [(type_tag, hash)] to
    the instance registered under it; an instance is referred to by its
    position in [instances] (its object identity) and is represented by the
    keyword arguments it was initialised with. *)
Record t := {
  index : gmap (string * Z) nat;
  instances : list kwargs
}.

Definition empty : t := {| index := ∅; instances := [] |}.

(** Modelled from the spec: [get_or_create type_tag hash builder] of the
    registry of [lastfm/base.py]: the instance already registered
    under the key, or else the one [builder] makes, registered before it is
    returned.  Nothing is ever evicted. *)
Definition get_or_create (tag : string) (h : Z) (builder : kwargs) (r : t) : nat * t :=
  match index r !! (tag, h) with
  | Some ref => (ref, r)
  | None =>
      let ref := length (instances r) in
      (ref, {| index := <[(tag, h) := ref]> (index r);
               instances := instances r ++ [builder] |})
  end.

(** Every registered reference is a live instance, and no two keys share
    one. *)
Definition wf (r : t) : Prop :=
  (∀ k ref, index r !! k = Some ref → (ref < length (instances r))%nat) ∧
  (∀ k1 k2 ref, index r !! k1 = Some ref → index r !! k2 = Some ref → k1 = k2).

End Registry.

(** The entity classes with an identity hash in the source. *)
Inductive entity_class := ClsUser | ClsVenue | ClsPlaylist.

Definition type_tag (c : entity_class) : string :=
  match c with
  | ClsUser => "User"
  | ClsVenue => "Venue"
  | ClsPlaylist => "User.Playlist"
  end.

Definition identity_field (c : entity_class) : string :=
  match c with
  | ClsUser => "name"
  | ClsVenue => "url"
  | ClsPlaylist => "id"
  end.

Definition hash_func (c : entity_class) : list value → kwargs → outcome Z :=
  match c with
  | ClsUser => User._hash_func
  | ClsVenue => Venue._hash_func
  | ClsPlaylist => User.Playlist._hash_func
  end.

(** [cls(api, **kwds)]: the identity hash, then the registry. *)
Definition construct (c : entity_class) (kwds : kwargs) (r : Registry.t)
  : outcome (nat * Registry.t) :=
  match hash_func c [] kwds with
  | Ok h => Ok (Registry.get_or_create (type_tag c) h kwds r)
  | Err e => Err e
  end.

(** A run of constructions, failed ones leaving the registry as it was. *)
Fixpoint construct_all (calls : list (entity_class * kwargs)) (r : Registry.t) : Registry.t :=
  match calls with
  | [] => r
  | (c, kwds) :: rest =>
      match construct c kwds r with
      | Ok (_, r') => construct_all rest r'
      | Err _ => construct_all rest r
      end
  end.

(** ** Counting names *)

(** The name of [n] letters that spells [x] in binary, lowest bit first,
    with [a] for 0 and [b] for 1; and the number a name spells. *)
Fixpoint binary_name (n : nat) (x : N) : string :=
  match n with
  | O => ""
  | S n' => String (if N.odd x then "b"%char else "a"%char) (binary_name n' (N.div2 x))
  end.

Fixpoint binary_value (s : string) : N :=
  match s with
  | EmptyString => 0%N
  | String c s' => ((if Ascii.eqb c "b" then 1 else 0) + 2 * binary_value s')%N
  end.

(** The range of a C long. *)
Definition long (x : Z) : Prop := - 2 ^ 63 ≤ x < 2 ^ 63.

(** ** Reading attributes *)


(** The attribute the property cache keeps property [name] in. *)
Definition slot (ob : nat) (name : string) : nat * string := (ob, String "_" name).

(** No value is stored: the attribute is missing or [None]. *)
Definition unset (s : State) (ob : nat) (name : string) : Prop :=
  attrs s !! slot ob name = None ∨ attrs s !! slot ob name = Some None.

(** Reading a property that holds no value: compute, then store. *)
Definition compute_and_store (name : string) (compute : M computed) (ob : nat) : M computed :=
  fun s =>
    match compute s with
    | (Ok v, s') => (Ok v, set_attrs (<[slot ob name := Some v]> (attrs s')) s')
    | (Err e, s') => (Err e, s')
    end.

(** The mutating operations of the source, each with the instance it is
    called on and the cached property it resets. *)
Inductive mutation :=
| CreatePlaylist (self : user) (title : value) (description : option value)
| PlaylistAddTrack (self : playlist) (trk : track + value) (art : option artist_arg)
| AddAlbum (self : library) (alb : album + value) (art : option artist_arg)
| AddArtist (self : library) (art : artist_arg)
| AddTrack (self : library) (trk : track + value) (art : option artist_arg).

Definition mutate (api : Api) (m : mutation) : M unit :=
  match m with
  | CreatePlaylist self title description =>
      Decorated.User.create_playlist api self title description
  | PlaylistAddTrack self trk art => Decorated.User.Playlist.add_track api self trk art
  | AddAlbum self alb art => Decorated.User.Library.add_album api self alb art
  | AddArtist self art => Decorated.User.Library.add_artist api self art
  | AddTrack self trk art => Decorated.User.Library.add_track api self trk art
  end.

Definition mutated_instance (m : mutation) : nat :=
  match m with
  | CreatePlaylist self _ _ => user_oid self
  | PlaylistAddTrack self _ _ => playlist_oid self
  | AddAlbum self _ _ | AddArtist self _ | AddTrack self _ _ => library_oid self
  end.

Definition invalidated (m : mutation) : string :=
  match m with
  | CreatePlaylist _ _ _ => "playlists"
  | PlaylistAddTrack _ _ _ => "data"
  | AddAlbum _ _ _ => "albums"
  | AddArtist _ _ => "artists"
  | AddTrack _ _ _ => "tracks"
  end.

(** The "top item" accessors of [User] and the collection each one names. *)
Inductive top_accessor :=
| TopTrack | TopAlbum | TopArtist | TopTag | NearestNeighbour | MostRecentTrack.

Definition backing_name (a : top_accessor) : string :=
  match a with
  | TopTrack => "top_tracks"
  | TopAlbum => "top_albums"
  | TopArtist => "top_artists"
  | TopTag => "top_tags"
  | NearestNeighbour => "neighbours"
  | MostRecentTrack => "recent_tracks"
  end.

Definition read_backing (api : Api) (self : user) (a : top_accessor) : M computed :=
  match a with
  | TopTrack => Decorated.User.top_tracks api self
  | TopAlbum => Decorated.User.top_albums api self
  | TopArtist => Decorated.User.top_artists api self
  | TopTag => Decorated.User.top_tags api self
  | NearestNeighbour => Decorated.User.neighbours api self
  | MostRecentTrack => Decorated.User.recent_tracks api self
  end.

Definition read_top (api : Api) (self : user) (a : top_accessor) : M (option item) :=
  match a with
  | TopTrack => Decorated.User.top_track api self
  | TopAlbum => Decorated.User.top_album api self
  | TopArtist => Decorated.User.top_artist api self
  | TopTag => Decorated.User.top_tag api self
  | NearestNeighbour => Decorated.User.nearest_neighbour api self
  | MostRecentTrack => Decorated.User.most_recent_track api self
  end.

(** The request [get_recent_tracks()] sends. *)
Definition recent_tracks_request (self : user) : request :=
  {| req_params :=
       {["method" := str "user.getRecentTracks"]} ∪ {["user" := of_opt (user_name self)]};
     req_sign := false; req_session := false; req_no_cache := true |}.

(** ** The requests of a paged listing *)

(** The [page] argument a listing is called with for page [n]: none for
    the first page. *)
Definition page_arg (n : Z) : option value :=
  if n =? 1 then None else Some (PyInt n).

Definition plain_request (p : params) (sign session : bool) : request :=
  {| req_params := p; req_sign := sign; req_session := session; req_no_cache := false |}.

(** The request sent for page [n], as the source builds it; an error when
    the instance has no name to build [params] from. *)
Definition request_of (src : pages_of) (n : Z) : outcome request :=
  let paged limit p := update_opt "page" (page_arg n) (update_opt "limit" limit p) in
  let of_params o limit :=
    match o with
    | Ok p => Ok (plain_request (paged limit p) false false)
    | Err e => Err e
    end in
  match src with
  | VenueGen p =>
      Ok (plain_request (if n =? 1 then p else <["page" := PVal (PyInt n)]> p) false false)
  | PageFn (UserPastEvents self limit) =>
      of_params (User.method_params self "user.getPastEvents") limit
  | PageFn (UserRecommendedEvents self limit) =>
      Ok (plain_request (paged limit {["method" := str "user.getRecommendedEvents"]}) true true)
  | PageFn (UserRecommendedArtists self) =>
      Ok (plain_request (paged None {["method" := str "user.getRecommendedArtists"]}) true true)
  | PageFn (LibraryAlbums self limit) =>
      of_params (User.Library._default_params self (Some {["method" := str "library.getAlbums"]}))
        limit
  | PageFn (LibraryArtists self limit) =>
      of_params (User.Library._default_params self (Some {["method" := str "library.getArtists"]}))
        limit
  | PageFn (LibraryTracks self limit) =>
      of_params (User.Library._default_params self (Some {["method" := str "library.getTracks"]}))
        limit
  end.

(** The class of the items of a paged listing. *)
Definition class_of (src : pages_of) : string :=
  match src with
  | VenueGen _ => "Event"
  | PageFn (UserPastEvents _ _) => "Event"
  | PageFn (UserRecommendedEvents _ _) => "Event"
  | PageFn (UserRecommendedArtists _) => "Artist"
  | PageFn (LibraryAlbums _ _) => "Album"
  | PageFn (LibraryArtists _ _) => "Artist"
  | PageFn (LibraryTracks _ _) => "Track"
  end.

(** The page functions written inside [try: ... except LastfmError]. *)
Definition catches (f : page_fn) : bool :=
  match f with
  | LibraryAlbums _ _ | LibraryArtists _ _ | LibraryTracks _ _ => true
  | _ => false
  end.

Definition items_of_page (src : pages_of) (d : page) : list item :=
  map (Built (class_of src)) (children d).

(** ** Failing requests *)

(** The state before anything happened. *)
Definition initial : State :=
  {| fetch_log := []; post_log := []; attrs := ∅; heap := [] |}.

(** An operation that sends one request lets its failure through: when
    the request it sent is one the service fails, it raises the error of
    the service. *)
Definition propagates {A} (api : Api) (m : M A) : Prop :=
  ∀ s r e,
    fetch_log (snd (m s)) = (fetch_log s ++ [r])%list →
    server api r = Err e →
    fst (m s) = Err e.

(** A page function that sends one request hides its failure: when the
    request it sent is one the service fails with an error of the
    library, it returns without yielding and raises nothing. *)
Definition swallows (api : Api) (m : M (list yielded)) : Prop :=
  ∀ s r e,
    fetch_log (snd (m s)) = (fetch_log s ++ [r])%list →
    server api r = Err e → is_LastfmError e = true →
    fst (m s) = Ok [].

(** How the chart of the week [wc] comes out; the state plays no part in
    it. *)
Definition week_outcome (api : Api) (self : user) (k : chart_kind) (wc : item) : outcome item :=
  fst (User.get_chart_of_kind api self k (week_start wc) (week_end wc) initial).

(** The requests that asking for the chart of the week [wc] sends; the
    state plays no part in them either. *)
Definition week_requests (api : Api) (self : user) (k : chart_kind) (wc : item)
  : list request :=
  fetch_log (snd (User.get_chart_of_kind api self k (week_start wc) (week_end wc) initial)).

Definition successes {A} (l : list (outcome A)) : list A :=
  omap (fun o => match o with Ok a => Some a | Err _ => None end) l.

(** ** A stub client and sample objects *)

Module Stub.

(** The page a request asks for: its [page] parameter, 1 when it has none. *)
Definition page_of (r : request) : Z :=
  match req_params r !! "page" with
  | Some (PVal (PyInt n)) => n
  | _ => 1
  end.

Definition record_name (pg : Z) (i : nat) : element :=
  String (ascii_of_nat (48 + Z.to_nat pg)) (String "-" (String (ascii_of_nat (97 + i)) "")).

(** A listing of [total] pages with [k] records on each. *)
Definition paged (total : Z) (k : nat) (r : request) : outcome (option page) :=
  Ok (Some {| totalPages := Number total;
              children := map (record_name (page_of r)) (seq 0 k) |}).

(** A service that is down. *)
Definition down (r : request) : outcome (option page) := Err (FetchError 8).

Definition rj : user :=
  {| user_oid := 0; user_name := Some (PyStr "rj"); user_real_name := None;
     user_url := None; user_image := None; user_stats := None |}.

Definition api (session : bool) (srv : request → outcome (option page)) : Api :=
  {| server := srv;
     post_server := fun _ => Ok tt;
     has_authenticated_session := session;
     authenticated_user := ([], Err AuthenticationFailedError);
     user_of_info := fun d => match d with Some _ => Ok rj | None => Err AttributeError end;
     track_search := fun _ => ([], Ok []);
     album_search := fun _ => ([], Ok []);
     check_weekly_chart_params := fun p _ _ => Ok p;
     weekly_chart_bounds := fun e => (Some (PyStr e), Some (PyStr e));
     weekly_tag_chart := fun _ _ _ => ([], Err (FetchError 8));
     tasteometer_compare := fun _ _ _ => ([], Err (FetchError 8)) |}.

Definition rj_library : library := {| library_oid := 1; library_user := rj |}.

(** A client with a session open for [u], its service down. *)
Definition api_for (u : user) : Api :=
  {| server := down;
     post_server := fun _ => Ok tt;
     has_authenticated_session := true;
     authenticated_user := ([], Ok u);
     user_of_info := fun _ => Ok u;
     track_search := fun _ => ([], Ok []);
     album_search := fun _ => ([], Ok []);
     check_weekly_chart_params := fun p _ _ => Ok p;
     weekly_chart_bounds := fun e => (Some (PyStr e), Some (PyStr e));
     weekly_tag_chart := fun _ _ _ => ([], Err (FetchError 8));
     tasteometer_compare := fun _ _ _ => ([], Err (FetchError 8)) |}.

Definition cargo : venue :=
  {| venue_oid := 2; venue_id := Some (PyInt 8778545);
     venue_name := Some (PyStr "Cargo"); venue_location := None;
     venue_url := Some (PyStr "http://www.last.fm/venue/8778545") |}.

Definition start : State := initial.

(** A service with five weeks of charts that fails for the week [w3]. *)
Definition weekly (r : request) : outcome (option page) :=
  match req_params r !! "method" with
  | Some (PVal (PyStr "user.getWeeklyChartList")) =>
      Ok (Some {| totalPages := Missing; children := ["w1"; "w2"; "w3"; "w4"; "w5"] |})
  | _ =>
      match req_params r !! "from" with
      | Some (PVal (PyStr "w3")) => Err (FetchError 8)
      | Some (PVal (PyStr w)) => Ok (Some {| totalPages := Missing; children := [w] |})
      | _ => Err (FetchError 6)
      end
  end.

Definition weekly_api : Api :=
  {| server := weekly;
     post_server := fun _ => Ok tt;
     has_authenticated_session := false;
     authenticated_user := ([], Err AuthenticationFailedError);
     user_of_info := fun d => match d with Some _ => Ok rj | None => Err AttributeError end;
     track_search := fun _ => ([], Ok []);
     album_search := fun _ => ([], Ok []);
     check_weekly_chart_params :=
       fun p a b => Ok (<["to" := of_opt b]> (<["from" := of_opt a]> p));
     weekly_chart_bounds := fun e => (Some (PyStr e), Some (PyStr e));
     weekly_tag_chart := fun _ _ _ => ([], Err (FetchError 8));
     tasteometer_compare := fun _ _ _ => ([], Err (FetchError 8)) |}.

End Stub.

(** ** Driving the generators; the bodies of the mutating operations *)

(** The request the generator of [Venue.get_past_events] sends for page
    [n]: [params] as they are for the first page, with [page] set after. *)
Definition venue_request (p : params) (n : Z) : request :=
  plain_request (if n =? 1 then p else <["page" := PVal (PyInt n)]> p) false false.

(** [n] calls of [next()] on a paged generator, stopping at the first that
    does not yield: the items yielded, how the generator ended if it did
    ([Some None] for [StopIteration], [Some (Some e)] for an exception),
    and where it stands. *)
Fixpoint next_calls (api : Api) (src : pages_of) (n : nat) (st : pager_state) (s : State)
  : list item * option (option error) * pager_state * State :=
  match n with
  | O => ([], None, st, s)
  | S n' =>
      match Depaginate.next api src st s with
      | (Yield x, st', s') =>
          let '(xs, e, st'', s'') := next_calls api src n' st' s' in
          (x :: xs, e, st'', s'')
      | (StopIteration, st', s') => ([], Some None, st', s')
      | (Raise e, st', s') => ([], Some (Some e), st', s')
      end
  end.

(** A mutating operation as written, without its [@authenticate]. *)
Definition mutate_body (api : Api) (m : mutation) : M unit :=
  match m with
  | CreatePlaylist self title description =>
      User.create_playlist api self title description
  | PlaylistAddTrack self trk art => User.Playlist.add_track api self trk art
  | AddAlbum self alb art => User.Library.add_album api self alb art
  | AddArtist self art => User.Library.add_artist api self art
  | AddTrack self trk art => User.Library.add_track api self trk art
  end.

(** The [method] parameter a mutating operation posts. *)
Definition post_method (m : mutation) : string :=
  match m with
  | CreatePlaylist _ _ _ => "playlist.create"
  | PlaylistAddTrack _ _ _ => "playlist.addTrack"
  | AddAlbum _ _ _ => "library.addAlbum"
  | AddArtist _ _ => "library.addArtist"
  | AddTrack _ _ _ => "library.addTrack"
  end.

(** The requests a mutating operation sends to look up a work: those of
    the search, when it is given the name of a work and no artist. *)
Definition lookup_requests (api : Api) (m : mutation) : list request :=
  match m with
  | PlaylistAddTrack _ (inr v) None | AddTrack _ (inr v) None => fst (track_search api v)
  | AddAlbum _ (inr v) None => fst (album_search api v)
  | _ => []
  end.

(** An operation that only reads: it posts nothing, writes no attribute,
    touches no lazy list, and sends no request or one, whose [sign] and
    [session] flags are both [signed]. *)
Definition reads_only {A} (signed : bool) (m : M A) : Prop :=
  ∀ s,
    post_log (snd (m s)) = post_log s ∧
    attrs (snd (m s)) = attrs s ∧
    heap (snd (m s)) = heap s ∧
    (fetch_log (snd (m s)) = fetch_log s ∨
     ∃ r, fetch_log (snd (m s)) = (fetch_log s ++ [r])%list ∧
          req_sign r = signed ∧ req_session r = signed).

(** The page functions that fetch for the session, signed. *)
Definition for_session (f : page_fn) : bool :=
  match f with
  | UserRecommendedEvents _ _ | UserRecommendedArtists _ => true
  | _ => false
  end.

(** The instance whose name a page function sends. *)
Definition owner (f : page_fn) : user :=
  match f with
  | UserPastEvents self _ | UserRecommendedEvents self _ | UserRecommendedArtists self => self
  | LibraryAlbums self _ | LibraryArtists self _ | LibraryTracks self _ => library_user self
  end.

(** An operation refused for want of a parameter: it raises the parameter
    error and nothing has happened. *)
Definition refused {A} (msg : string) (m : M A) (s : State) : Prop :=
  m s = (Err (InvalidParametersError msg), s).

(** The events the generator of [Venue.get_past_events] gets from page
    [j]: the records of the answer; none when the request fails or the
    answer has no container. *)
Definition page_items (api : Api) (p : params) (j : Z) : list item :=
  match server api (venue_request p j) with
  | Ok (Some d) => map (Built "Event") (children d)
  | _ => []
  end.

(** The page count the first answer announces; 1 when it fails or
    announces none that can be read. *)
Definition announced (api : Api) (p : params) : Z :=
  match server api (venue_request p 1) with
  | Ok data => match total_pages data with Ok t => t | Err _ => 1 end
  | Err _ => 1
  end.

(** [x = search(...)[0]] and what follows it: the first hit, [IndexError]
    when there is none, the error of the search when it fails. *)
Definition with_first_hit {W A} (h : list request * outcome (list W)) (k : W → M A) : M A :=
  fun s =>
    match snd h with
    | Ok (w :: _) => k w (log_fetch (fst h) s)
    | Ok [] => (Err IndexError, log_fetch (fst h) s)
    | Err e => (Err e, log_fetch (fst h) s)
    end.

(** The ways of naming a work to an [add_*] operation that come to the
    same call: with the work itself the [artist] argument plays no part;
    a work with a name, by an artist with a name, may be given by its name
    and its artist; an artist with a name may be given by that name.  An
    artist without a name is posted as the object it is. *)
Definition names_agree {W} (add : W + value → option artist_arg → M unit)
    (name_of : W → option value) (artist_of : W → artist) : Prop :=
  (∀ w art art' s, add (inl w) art s = add (inl w) art' s) ∧
  (∀ w n s, name_of w = Some n → Py.truthy (artist_name (artist_of w)) = true →
     add (inl w) None s = add (inr n) (Some (ArtistObj (artist_of w))) s) ∧
  (∀ v a an s, artist_name a = Some an → Py.truthy (Some an) = true →
     add (inr v) (Some (ArtistObj a)) s = add (inr v) (Some (ArtistName an)) s) ∧
  (∀ v a s, Py.truthy (artist_name a) = false →
     ∃ prm, post_log (snd (add (inr v) (Some (ArtistObj a)) s)) = (post_log s ++ [prm])%list ∧
            prm !! "artist" = Some (PArtist a)).

(** What [Playlist.add_track], [Library.add_track] and [Library.add_album]
    have in common: fill in the parameters of the work, post, reset the
    attribute. *)
Definition add_work {W} (api : Api) (key : string) (name_of : W → option value)
    (artist_of : W → artist) (srch : value → list request * outcome (list W))
    (prm : params) (ob : nat) (attr : string)
    (x : W + value) (art : option artist_arg) : M unit :=
  let* q := work_params key name_of artist_of (fun v => helper (srch v)) x art prm in
  do _post_data api q then
  setattr ob attr None.

(** * Properties *)

(** ** The builtin hash *)

Example hash_of_a : Py.hash (PyStr "a") = 12416037344.
Proof. reflexivity. Qed.

Example hash_of_abc : Py.hash (PyStr "abc") = 1453079729188098211.
Proof. reflexivity. Qed.

Example hash_of_small_ints :
  Py.hash (PyInt 42) = 42 ∧ Py.hash (PyInt (-1)) = -2 ∧ Py.hash (PyInt (-2)) = -2.
Proof. repeat split. Qed.

(** ** Hashes are C longs, so names collide *)

Section HashCollisions.

Lemma wrap64_long x : long (Py.wrap64 x).
Proof.
  unfold long, Py.wrap64.
  pose proof (Z.mod_pos_bound (x + 2 ^ 63) (2 ^ 64) ltac:(lia)). lia.
Qed.

Lemma lxor_small a b n :
  0 < n → 0 ≤ a < 2 ^ n → 0 ≤ b < 2 ^ n → 0 ≤ Z.lxor a b < 2 ^ n.
Proof.
  intros Hn Ha Hb.
  assert (H0 : 0 ≤ Z.lxor a b) by (apply Z.lxor_nonneg; lia).
  split; [exact H0|].
  destruct (Z.eq_dec (Z.lxor a b) 0) as [->|Hne]; [apply Z.pow_pos_nonneg; lia|].
  apply Z.log2_lt_pow2; [lia|].
  pose proof (Z.log2_lxor a b ltac:(lia) ltac:(lia)) as Hl.
  assert (La : Z.log2 a < n).
  { destruct (Z.eq_dec a 0) as [->|]; [cbn; lia|]. apply Z.log2_lt_pow2; lia. }
  assert (Lb : Z.log2 b < n).
  { destruct (Z.eq_dec b 0) as [->|]; [cbn; lia|]. apply Z.log2_lt_pow2; lia. }
  lia.
Qed.

Lemma lxor_long a b : long a → 0 ≤ b < 2 ^ 63 → long (Z.lxor a b).
Proof.
  unfold long. intros Ha Hb.
  destruct (Z_lt_le_dec a 0) as [Hneg|Hpos].
  - pose proof (lxor_small (Z.lnot a) b 63 ltac:(lia)) as H.
    rewrite Z.lnot_eq_pred_opp in H. specialize (H ltac:(lia) Hb).
    rewrite <- Z.lnot_eq_pred_opp, <- Z.lnot_lxor_l, Z.lnot_eq_pred_opp in H. lia.
  - pose proof (lxor_small a b 63 ltac:(lia) ltac:(lia) Hb). lia.
Qed.

Lemma ord_small c : 0 ≤ Py.ord c < 256.
Proof.
  unfold Py.ord. pose proof (N_ascii_bounded c). lia.
Qed.

Lemma not_minus_one_long x : long x → long (Py.not_minus_one x).
Proof. unfold long, Py.not_minus_one. destruct (Z.eqb_spec x (-1)); lia. Qed.

Lemma str_hash_loop_long s : ∀ x, long x → long (Py.str_hash_loop x s).
Proof.
  induction s as [|c s IH]; intros x Hx; cbn; [exact Hx|].
  apply IH. apply lxor_long; [apply wrap64_long|].
  pose proof (ord_small c). lia.
Qed.

Lemma str_hash_long s : Z.of_nat (String.length s) < 2 ^ 63 → long (Py.str_hash s).
Proof.
  intros Hlen. destruct s as [|c s]; [unfold long; cbn; lia|].
  unfold Py.str_hash. apply not_minus_one_long. apply lxor_long; [|lia].
  apply str_hash_loop_long. unfold long.
  rewrite Z.shiftl_mul_pow2 by lia. pose proof (ord_small c). lia.
Qed.

Lemma binary_name_length n : ∀ x, String.length (binary_name n x) = n.
Proof. induction n as [|n IH]; intros x; cbn; [reflexivity|]. now rewrite IH. Qed.

Lemma binary_value_name n : ∀ x, (x < 2 ^ N.of_nat n)%N → binary_value (binary_name n x) = x.
Proof.
  induction n as [|n IH]; intros x Hx.
  - cbn in *. lia.
  - cbn [binary_name binary_value].
    rewrite IH.
    + pose proof (N.div2_odd x) as E.
      destruct (N.odd x); cbn in *; lia.
    + rewrite Nat2N.inj_succ, N.pow_succ_r' in Hx.
      rewrite N.div2_div. apply N.Div0.div_lt_upper_bound. lia.
Qed.

Lemma long_in_range (K : nat) (h : Z) :
  Z.of_nat K = 2 ^ 64 → long h →
  In h (map (fun i => Z.of_nat i - 2 ^ 63) (seq 0 K)).
Proof.
  intros HK [Hlo Hhi]. apply in_map_iff.
  exists (Z.to_nat (h + 2 ^ 63)). split; [lia|].
  apply in_seq. lia.
Qed.

Lemma names_distinct (i j : nat) :
  Z.of_nat i ≤ 2 ^ 64 → Z.of_nat j ≤ 2 ^ 64 →
  binary_name 65 (N.of_nat i) = binary_name 65 (N.of_nat j) → i = j.
Proof.
  intros Hi Hj E.
  assert (P : (2 ^ N.of_nat 65 = 36893488147419103232)%N) by reflexivity.
  apply (f_equal binary_value) in E.
  rewrite !binary_value_name in E by (rewrite P; lia). lia.
Qed.

(** No assignment of 64-bit hashes tells all names apart: among the
    [2^64 + 1] names [binary_name 65 0, ..., binary_name 65 (2^64)] two
    have the same hash. *)
Theorem str_hash_collides :
  ¬ (∀ a b : string, a ≠ b → Py.hash (PyStr a) ≠ Py.hash (PyStr b)).
Proof.
  intros Hinj.
  remember (Z.to_nat (2 ^ 64)) as K eqn:EK.
  assert (HK : Z.of_nat K = 2 ^ 64) by (subst K; apply Z2Nat.id; lia).
  clear EK.
  set (f := fun i : nat => Py.str_hash (binary_name 65 (N.of_nat i))).
  assert (Hnodup : NoDup (map f (seq 0 (S K)))).
  { apply (NoDup_fmap_2_strong f).
    - intros i j Hi Hj E.
      apply list_elem_of_In, in_seq in Hi. apply list_elem_of_In, in_seq in Hj.
      apply names_distinct; [lia|lia|].
      destruct (string_dec (binary_name 65 (N.of_nat i)) (binary_name 65 (N.of_nat j)))
        as [Heq|Hne]; [exact Heq|].
      exfalso. exact (Hinj _ _ Hne E).
    - apply NoDup_ListNoDup, seq_NoDup. }
  assert (Hincl : incl (map f (seq 0 (S K)))
                    (map (fun i => Z.of_nat i - 2 ^ 63) (seq 0 K))).
  { intros h Hh. apply in_map_iff in Hh as (i & <- & _).
    apply long_in_range; [exact HK|].
    apply str_hash_long. rewrite binary_name_length. lia. }
  pose proof (NoDup_incl_length (proj1 (NoDup_ListNoDup _) Hnodup) Hincl) as Hlen.
  rewrite !length_map, !length_seq in Hlen. lia.
Qed.

End HashCollisions.

(** ** Identity hashes (C7) *)

Lemma hash_of_field_missing field msg (kwds : kwargs) :
  kwds !! field = None → hash_of_field field msg kwds = Err (InvalidParametersError msg).
Proof. intros H. unfold hash_of_field. now rewrite H. Qed.

Lemma hash_of_field_present field msg (kwds : kwargs) v :
  kwds !! field = Some v → hash_of_field field msg kwds = Ok (Py.hash v).
Proof. intros H. unfold hash_of_field. now rewrite H. Qed.

(** C7: when the identity field of a class ([name] for [User], [url] for
    [Venue], [id] for [User.Playlist]) is absent from the keyword
    arguments, the identity hash raises [InvalidParametersError] saying
    which field has to be provided. *)
Theorem C7_missing_identity_field (c : entity_class) (args : list value) (kwds : kwargs) :
  kwds !! identity_field c = None →
  hash_func c args kwds =
    Err (InvalidParametersError
           (String.append (identity_field c) " has to be provided for hashing")).
Proof.
  intros H. destruct c; cbn in *; now apply hash_of_field_missing.
Qed.

Lemma C7_witness :
  hash_func ClsVenue [PyStr "api"] {["name" := PyStr "Cargo"]} =
    Err (InvalidParametersError "url has to be provided for hashing").
Proof. apply (C7_missing_identity_field ClsVenue). reflexivity. Defined.

Lemma hash_func_present (c : entity_class) args (kwds : kwargs) v :
  kwds !! identity_field c = Some v → hash_func c args kwds = Ok (Py.hash v).
Proof.
  intros H. destruct c; cbn in *; now apply hash_of_field_present with (v := v).
Qed.

(** ** The identity registry (C1) *)

Section RegistryFacts.

Lemma wf_empty : Registry.wf Registry.empty.
Proof.
  split; cbn; intros *; rewrite lookup_empty; discriminate.
Qed.

(** What a lookup-or-insert leaves behind: the key is bound to the
    reference returned, and every binding of before is still there. *)
Lemma get_or_create_bound tag h b r :
  Registry.index (snd (Registry.get_or_create tag h b r)) !! (tag, h)
  = Some (fst (Registry.get_or_create tag h b r)).
Proof.
  unfold Registry.get_or_create.
  destruct (Registry.index r !! (tag, h)) eqn:E; cbn; [exact E|].
  apply lookup_insert_eq.
Qed.

Lemma get_or_create_keeps tag h b r k ref :
  Registry.index r !! k = Some ref →
  Registry.index (snd (Registry.get_or_create tag h b r)) !! k = Some ref.
Proof.
  intros Hk. unfold Registry.get_or_create.
  destruct (Registry.index r !! (tag, h)) eqn:E; cbn; [exact Hk|].
  rewrite lookup_insert_ne; [exact Hk|]. intros Heq. subst k. congruence.
Qed.

Lemma get_or_create_wf tag h b r :
  Registry.wf r → Registry.wf (snd (Registry.get_or_create tag h b r)).
Proof.
  intros [Hlive Hinj]. unfold Registry.get_or_create.
  destruct (Registry.index r !! (tag, h)) eqn:E; cbn; [now split|].
  split; cbn.
  - intros k ref. rewrite length_app; cbn.
    destruct (decide ((tag, h) = k)) as [->|Hne].
    + rewrite lookup_insert_eq. intros [= <-]. lia.
    + rewrite lookup_insert_ne by exact Hne. intros Hk.
      apply Hlive in Hk. lia.
  - intros k1 k2 ref.
    destruct (decide ((tag, h) = k1)) as [<-|Hne1];
      destruct (decide ((tag, h) = k2)) as [<-|Hne2];
      rewrite ?lookup_insert_eq, ?lookup_insert_ne by assumption.
    + reflexivity.
    + intros [= <-] Hk. apply Hlive in Hk. lia.
    + intros Hk [= <-]. apply Hlive in Hk. lia.
    + apply Hinj.
Qed.

Lemma construct_keeps c kwds r ref' r' k ref :
  construct c kwds r = Ok (ref', r') →
  Registry.index r !! k = Some ref → Registry.index r' !! k = Some ref.
Proof.
  unfold construct. destruct (hash_func c [] kwds) as [h|e]; [|discriminate].
  intros [= E] Hk.
  pose proof (get_or_create_keeps (type_tag c) h kwds r k ref Hk) as K.
  now rewrite E in K.
Qed.

Lemma construct_wf c kwds r ref' r' :
  construct c kwds r = Ok (ref', r') → Registry.wf r → Registry.wf r'.
Proof.
  unfold construct. destruct (hash_func c [] kwds) as [h|e]; [|discriminate].
  intros [= E] Hwf.
  pose proof (get_or_create_wf (type_tag c) h kwds r Hwf) as K.
  now rewrite E in K.
Qed.

Lemma construct_all_keeps calls : ∀ r k ref,
  Registry.index r !! k = Some ref →
  Registry.index (construct_all calls r) !! k = Some ref.
Proof.
  induction calls as [|[c kwds] rest IH]; intros r k ref Hk; cbn; [exact Hk|].
  destruct (construct c kwds r) as [[ref' r']|e] eqn:E.
  - apply IH. eapply construct_keeps; eauto.
  - now apply IH.
Qed.

Lemma construct_all_wf calls : ∀ r,
  Registry.wf r → Registry.wf (construct_all calls r).
Proof.
  induction calls as [|[c kwds] rest IH]; intros r Hwf; cbn; [exact Hwf|].
  destruct (construct c kwds r) as [[ref' r']|e] eqn:E.
  - apply IH. eapply construct_wf; eauto.
  - now apply IH.
Qed.

End RegistryFacts.

(** C1, as amended: two constructions of the same class whose identity
    fields are equal return the same instance, whatever was constructed in
    between; two whose identity fields have different hashes return
    different instances.  (The registry key is the hash, so unequal fields
    with one hash share an instance.) *)
Theorem C1_identity_registry (c : entity_class) (k1 k2 : kwargs) (v1 v2 : value)
    (r r1 r2 : Registry.t) (between : list (entity_class * kwargs)) (ref1 ref2 : nat) :
  Registry.wf r →
  k1 !! identity_field c = Some v1 →
  k2 !! identity_field c = Some v2 →
  construct c k1 r = Ok (ref1, r1) →
  construct c k2 (construct_all between r1) = Ok (ref2, r2) →
  (v1 = v2 → ref1 = ref2) ∧ (Py.hash v1 ≠ Py.hash v2 → ref1 ≠ ref2).
Proof.
  intros Hwf H1 H2 C1 C2.
  assert (Hwf1 : Registry.wf r1) by (eapply construct_wf; eauto).
  pose proof (construct_all_wf between r1 Hwf1) as Hwf'.
  unfold construct in C1, C2.
  rewrite (hash_func_present c [] k1 v1 H1) in C1.
  rewrite (hash_func_present c [] k2 v2 H2) in C2.
  injection C1 as E1. injection C2 as E2.
  pose proof (get_or_create_bound (type_tag c) (Py.hash v1) k1 r) as B1.
  rewrite E1 in B1. cbn in B1.
  apply (construct_all_keeps between) in B1.
  set (r' := construct_all between r1) in *.
  split.
  - intros <-. unfold Registry.get_or_create in E2. rewrite B1 in E2.
    cbn in E2. congruence.
  - intros Hne Heq. subst ref2.
    pose proof (get_or_create_bound (type_tag c) (Py.hash v2) k2 r') as B2.
    pose proof (get_or_create_keeps (type_tag c) (Py.hash v2) k2 r' _ _ B1) as B1'.
    pose proof (get_or_create_wf (type_tag c) (Py.hash v2) k2 r' Hwf') as [_ Hinj].
    rewrite E2 in B2, B1', Hinj. cbn in B2, B1', Hinj.
    specialize (Hinj _ _ _ B1' B2). congruence.
Qed.

Lemma C1_witness :
  (PyStr "rj" = PyStr "mxcl" → 0%nat = 1%nat) ∧
  (Py.hash (PyStr "rj") ≠ Py.hash (PyStr "mxcl") → 0%nat ≠ 1%nat).
Proof.
  pose (r1 := snd (Registry.get_or_create "User" (Py.hash (PyStr "rj"))
                     {["name" := PyStr "rj"]} Registry.empty)).
  apply (C1_identity_registry ClsUser
           {["name" := PyStr "rj"]}
           {["name" := PyStr "mxcl"; "url" := PyStr "http://www.last.fm/user/mxcl"]}
           (PyStr "rj") (PyStr "mxcl") Registry.empty r1
           (snd (Registry.get_or_create "User" (Py.hash (PyStr "mxcl"))
                   {["name" := PyStr "mxcl"; "url" := PyStr "http://www.last.fm/user/mxcl"]}
                   r1))
           [] 0%nat 1%nat).
  - exact wf_empty.
  - reflexivity.
  - reflexivity.
  - reflexivity.
  - vm_compute. reflexivity.
Defined.

(** C1 as stated fails: [hash(-1) == hash(-2)], so playlists (or users)
    constructed with the unequal identity fields -1 and -2 are one
    instance; and user names that are strings cannot all get instances
    of their own either, since their hashes are C longs. *)
Lemma C1_counterexample :
  PyInt (-1) ≠ PyInt (-2) ∧
  (∃ ref r1 r2,
     construct ClsPlaylist {["id" := PyInt (-1)]} Registry.empty = Ok (ref, r1) ∧
     construct ClsPlaylist {["id" := PyInt (-2)]} r1 = Ok (ref, r2)) ∧
  (∃ ref r1 r2,
     construct ClsUser {["name" := PyInt (-1)]} Registry.empty = Ok (ref, r1) ∧
     construct ClsUser {["name" := PyInt (-2)]} r1 = Ok (ref, r2)) ∧
  ¬ (∀ a b : string, a ≠ b →
       ∀ ref1 r1 ref2 r2,
         construct ClsUser {["name" := PyStr a]} Registry.empty = Ok (ref1, r1) →
         construct ClsUser {["name" := PyStr b]} r1 = Ok (ref2, r2) →
         ref1 ≠ ref2).
Proof.
  split; [discriminate|].
  split; [do 3 eexists; split; vm_compute; reflexivity|].
  split; [do 3 eexists; split; vm_compute; reflexivity|].
  intros Hdistinct. apply str_hash_collides. intros a b Hab Hhash.
  set (ka := {["name" := PyStr a]} : kwargs). set (kb := {["name" := PyStr b]} : kwargs).
  set (r1 := snd (Registry.get_or_create "User" (Py.hash (PyStr a)) ka Registry.empty)).
  apply (Hdistinct a b Hab 0%nat r1 0%nat r1).
  - reflexivity.
  - unfold construct. cbn [hash_func type_tag].
    unfold User._hash_func, hash_of_field, kb. rewrite lookup_singleton_eq.
    rewrite <- Hhash. unfold Registry.get_or_create.
    pose proof (get_or_create_bound "User" (Py.hash (PyStr a)) ka Registry.empty) as B.
    fold r1 in B. rewrite B. reflexivity.
  - reflexivity.
Qed.

(** ** Equality and ordering of entities (C8) *)

Lemma py_eqb_refl (v : value) : Py.eqb v v = true.
Proof.
  destruct v; cbn; [apply Z.eqb_refl | apply String.eqb_refl].
Qed.

Lemma py_opt_eqb_refl (o : option value) : Py.opt_eqb o o = true.
Proof. destruct o; cbn; [apply py_eqb_refl | reflexivity]. Qed.

Lemma py_eqb_eq (v w : value) : Py.eqb v w = true ↔ v = w.
Proof.
  split.
  - destruct v, w; cbn; try discriminate.
    + intros H. apply Z.eqb_eq in H. now subst.
    + intros H. apply String.eqb_eq in H. now subst.
  - intros ->. apply py_eqb_refl.
Qed.

Lemma py_opt_eqb_eq (a b : option value) : Py.opt_eqb a b = true ↔ a = b.
Proof.
  destruct a as [v|], b as [w|]; cbn; try (split; congruence).
  rewrite py_eqb_eq. split; congruence.
Qed.

(** C8, as amended: equality of two users is decided by their names and
    equality of two venues by their urls, so entities with equal identity
    fields are equal whatever their other attributes are; the order of two
    users is decided by their names, and the order of two venues by their
    names too (not by the url they are identified by). *)
Theorem C8_comparisons_by_fields :
  (∀ a b a' b' : user,
      User.name a = User.name a' → User.name b = User.name b' →
      User.__eq__ a b = User.__eq__ a' b' ∧ User.__lt__ a b = User.__lt__ a' b') ∧
  (∀ a b : user, User.name a = User.name b → User.__eq__ a b = true) ∧
  (∀ a b a' b' : venue,
      Venue.url a = Venue.url a' → Venue.url b = Venue.url b' →
      Venue.__eq__ a b = Venue.__eq__ a' b') ∧
  (∀ a b : venue, Venue.url a = Venue.url b → Venue.__eq__ a b = true) ∧
  (∀ a b a' b' : venue,
      Venue.name a = Venue.name a' → Venue.name b = Venue.name b' →
      Venue.__lt__ a b = Venue.__lt__ a' b').
Proof.
  repeat split.
  - unfold User.__eq__. congruence.
  - unfold User.__lt__. congruence.
  - intros a b H. unfold User.__eq__. rewrite H. apply py_opt_eqb_refl.
  - intros a b a' b' Ha Hb. unfold Venue.__eq__. congruence.
  - intros a b H. unfold Venue.__eq__. rewrite H. apply py_opt_eqb_refl.
  - intros a b a' b' Ha Hb. unfold Venue.__lt__. congruence.
Qed.

(** C8 as stated fails for the order of venues: the venues [a] and [a']
    have the same url, yet [a < b] holds and [a' < b] does not. *)
Lemma C8_counterexample :
  let mk := fun nm =>
    {| venue_oid := 0; venue_id := Some (PyInt 8908030);
       venue_name := Some (PyStr nm); venue_location := None;
       venue_url := Some (PyStr "http://www.last.fm/venue/8908030") |} in
  let b :=
    {| venue_oid := 1; venue_id := Some (PyInt 8778545);
       venue_name := Some (PyStr "Cargo"); venue_location := None;
       venue_url := Some (PyStr "http://www.last.fm/venue/8778545") |} in
  Venue.url (mk "Barfly") = Venue.url (mk "Koko") ∧
  Venue.__eq__ (mk "Barfly") (mk "Koko") = true ∧
  Venue.__lt__ (mk "Barfly") b = true ∧
  Venue.__lt__ (mk "Koko") b = false.
Proof. cbv zeta. repeat split. Qed.

Lemma C8_witness :
  let played := {| stats_match := None; stats_weight := None;
                   stats_playcount := Some (PyInt 1200) |} in
  let rj' := {| user_oid := 7; user_name := Some (PyStr "rj"); user_real_name := None;
                user_url := None; user_image := None; user_stats := Some played |} in
  User.__eq__ Stub.rj rj' = true ∧
  User.__lt__ Stub.rj rj' = User.__lt__ rj' Stub.rj.
Proof.
  intros played rj'.
  destruct C8_comparisons_by_fields as (Hu & Heq & _).
  split.
  - apply Heq. reflexivity.
  - apply (Hu Stub.rj rj' rj' Stub.rj); reflexivity.
Defined.

(** ** [User.authenticated] (C10) *)

(** C10: reading [authenticated] never raises
    [AuthenticationFailedError]; when the client fails with it to give the
    authenticated user the answer is [False]; when the client gives the
    authenticated user the answer is whether that user equals [self]:
    [True] when their names are equal, [False] when they are not. *)
Theorem C10_authenticated (api : Api) (self : user) (s : State) :
  fst (User.authenticated api self s) ≠ Err AuthenticationFailedError ∧
  (snd (authenticated_user api) = Err AuthenticationFailedError →
   fst (User.authenticated api self s) = Ok false) ∧
  (∀ auth_user, snd (authenticated_user api) = Ok auth_user →
   (user_name auth_user = user_name self →
    fst (User.authenticated api self s) = Ok true) ∧
   (user_name auth_user ≠ user_name self →
    fst (User.authenticated api self s) = Ok false)).
Proof.
  unfold User.authenticated, get_authenticated_user, helper.
  destruct (authenticated_user api) as [reqs [u|e]]; cbn.
  - split; [discriminate|]. split; [discriminate|].
    intros auth_user [= <-]. unfold User.__eq__, User.name. split.
    + intros Heq. f_equal. now apply py_opt_eqb_eq.
    + intros Hne. f_equal.
      destruct (Py.opt_eqb (user_name u) (user_name self)) eqn:E; [|reflexivity].
      apply py_opt_eqb_eq in E. contradiction.
  - split; [|split].
    + destruct e; cbn; discriminate.
    + intros [= ->]. reflexivity.
    + intros auth_user H. discriminate H.
Qed.

Lemma C10_witness :
  let rj' := {| user_oid := 7; user_name := Some (PyStr "rj");
                user_real_name := Some (PyStr "Richard Jones");
                user_url := None; user_image := None; user_stats := None |} in
  let mxcl := {| user_oid := 8; user_name := Some (PyStr "mxcl"); user_real_name := None;
                 user_url := None; user_image := None; user_stats := None |} in
  fst (User.authenticated (Stub.api false Stub.down) Stub.rj Stub.start) = Ok false ∧
  fst (User.authenticated (Stub.api_for rj') Stub.rj Stub.start) = Ok true ∧
  fst (User.authenticated (Stub.api_for mxcl) Stub.rj Stub.start) = Ok false.
Proof.
  intros rj' mxcl. split; [|split].
  - destruct (C10_authenticated (Stub.api false Stub.down) Stub.rj Stub.start)
      as (_ & H & _).
    apply H. reflexivity.
  - destruct (C10_authenticated (Stub.api_for rj') Stub.rj Stub.start) as (_ & _ & H).
    destruct (H rj' eq_refl) as [Heq _]. apply Heq. reflexivity.
  - destruct (C10_authenticated (Stub.api_for mxcl) Stub.rj Stub.start) as (_ & _ & H).
    destruct (H mxcl eq_refl) as [_ Hne]. apply Hne. discriminate.
Defined.

(** ** The property cache (C5, C6) *)

Section PropertyCache.
Import Decorators.

Lemma cached_hit name compute ob s v :
  attrs s !! slot ob name = Some (Some v) →
  cached_property name compute ob s = (Ok v, s).
Proof. unfold cached_property, slot. now intros ->. Qed.

Lemma cached_miss name compute ob s v s' :
  unset s ob name → compute s = (Ok v, s') →
  cached_property name compute ob s
  = (Ok v, set_attrs (<[slot ob name := Some v]> (attrs s')) s').
Proof.
  unfold unset, cached_property, slot. intros [-> | ->] ->; reflexivity.
Qed.

Lemma cached_miss_err name compute ob s e s' :
  unset s ob name → compute s = (Err e, s') →
  cached_property name compute ob s = (Err e, s').
Proof.
  unfold unset, cached_property, slot. intros [-> | ->] ->; reflexivity.
Qed.


Lemma cached_read_again name compute ob s v s' :
  cached_property name compute ob s = (Ok v, s') →
  cached_property name compute ob s' = (Ok v, s').
Proof.
  unfold cached_property. fold (slot ob name).
  destruct (attrs s !! slot ob name) as [[w|]|] eqn:E.
  - intros [= <- <-]. now rewrite E.
  - destruct (compute s) as [[w|e] s1]; [|discriminate].
    intros [= <- <-]. cbn. now rewrite lookup_insert_eq.
  - destruct (compute s) as [[w|e] s1]; [|discriminate].
    intros [= <- <-]. cbn. now rewrite lookup_insert_eq.
Qed.

Lemma slot_inj ob name name' : slot ob name = slot ob name' → name = name'.
Proof. unfold slot. now intros [= ->]. Qed.

End PropertyCache.



Lemma mutate_effect api m s s' :
  mutate api m s = (Ok tt, s') →
  attrs s' = <[slot (mutated_instance m) (invalidated m) := None]> (attrs s) ∧
  heap s' = heap s.
Proof.
  destruct m as [self title d|self trk art|self alb art|self art|self trk art];
    unfold mutate, Decorated.User.create_playlist, Decorated.User.Playlist.add_track,
      Decorated.User.Library.add_album, Decorated.User.Library.add_artist,
      Decorated.User.Library.add_track, Decorators.authenticate;
    (destruct (has_authenticated_session api); [|discriminate]);
    unfold User.create_playlist, User.Playlist.add_track, User.Library.add_album,
      User.Library.add_artist, User.Library.add_track, work_params,
      bind, ret, lift, setattr, _post_data, search_track, search_album, helper, slot;
    cbn; repeat (case_match; simplify_eq; cbn in * );
    try discriminate; intros [= <-]; split; reflexivity.
Qed.

(** C6: after a mutating operation succeeds ([create_playlist],
    [Playlist.add_track], [Library.add_album], [Library.add_artist],
    [Library.add_track]), the next read of the property it invalidates
    computes again and stores the new value, whatever was stored before;
    every other attribute of every instance and every lazy list is as
    before, so a read of another cached property that held a value returns
    it without computing.  For [Library.add_track]: the next read of
    [tracks] makes a new lazy list that has produced nothing and fetched
    no page, and [albums] and [artists] are returned as they were. *)
Theorem C6_invalidation (api : Api) (m : mutation) (s s' : State) :
  mutate api m s = (Ok tt, s') →
  let ob := mutated_instance m in
  (∀ compute,
     Decorators.cached_property (invalidated m) compute ob s'
     = compute_and_store (invalidated m) compute ob s') ∧
  (∀ key, key ≠ slot ob (invalidated m) → attrs s' !! key = attrs s !! key) ∧
  heap s' = heap s ∧
  (∀ name compute v, name ≠ invalidated m →
     attrs s !! slot ob name = Some (Some v) →
     Decorators.cached_property name compute ob s' = (Ok v, s')) ∧
  (∀ lib trk art, m = AddTrack lib trk art →
     let fresh := {| seen := []; gen := Paged (PageFn (LibraryTracks lib None)) Init |} in
     let loc := length (heap s') in
     Decorated.User.Library.tracks api lib s'
       = (Ok (CLazy loc),
          set_attrs (<[slot ob "tracks" := Some (CLazy loc)]> (attrs s'))
            (set_heap (heap s' ++ [fresh]) s')) ∧
     (∀ v, attrs s !! slot ob "albums" = Some (Some v) →
        Decorated.User.Library.albums api lib s' = (Ok v, s')) ∧
     (∀ v, attrs s !! slot ob "artists" = Some (Some v) →
        Decorated.User.Library.artists api lib s' = (Ok v, s'))).
Proof.
  intros H ob. apply mutate_effect in H as [Ha Hh]. fold ob in Ha.
  assert (Hunset : unset s' ob (invalidated m)).
  { right. rewrite Ha. apply lookup_insert_eq. }
  assert (Hframe : ∀ key, key ≠ slot ob (invalidated m) →
                          attrs s' !! key = attrs s !! key).
  { intros key Hk. rewrite Ha. now apply lookup_insert_ne. }
  assert (Hother : ∀ name compute v, name ≠ invalidated m →
            attrs s !! slot ob name = Some (Some v) →
            Decorators.cached_property name compute ob s' = (Ok v, s')).
  { intros name compute v Hn Hv. apply cached_hit. rewrite Hframe; [exact Hv|].
    intros E. apply slot_inj in E. contradiction. }
  split; [|split; [exact Hframe|split; [exact Hh|split; [exact Hother|]]]].
  - intros compute. unfold compute_and_store.
    destruct (compute s') as [[v|e] s''] eqn:E.
    + now apply cached_miss.
    + now apply cached_miss_err.
  - intros lib trk art ->. cbn in *. split; [|split].
    + unfold Decorated.User.Library.tracks.
      now apply (cached_miss _ _ _ _ _ (set_heap (heap s' ++ [_]) s')).
    + intros v Hv. now apply Hother.
    + intros v Hv. now apply Hother.
Qed.

Lemma C6_witness :
  let api := Stub.api true Stub.down in
  let lib := Stub.rj_library in
  let old := {| seen := [Built "Track" "1-a"];
                gen := Paged (PageFn (LibraryTracks lib None)) Exhausted |} in
  let s : State :=
    {| fetch_log := []; post_log := [];
       attrs := {[slot 1 "tracks" := Some (CLazy 0); slot 1 "albums" := Some (CList [])]};
       heap := [old] |} in
  let m := AddTrack lib (inr (PyStr "Hey Jude")) (Some (ArtistName (PyStr "The Beatles"))) in
  let s' := snd (mutate api m s) in
  fst (Decorated.User.Library.tracks api lib s') = Ok (CLazy 1) ∧
  Decorated.User.Library.albums api lib s' = (Ok (CList []), s').
Proof.
  intros api lib old s m s'.
  assert (E : mutate api m s = (Ok tt, s')) by reflexivity.
  destruct (C6_invalidation api m s s' E) as (_ & _ & _ & _ & H).
  destruct (H lib _ _ eq_refl) as (Ht & Hal & _).
  split.
  - rewrite Ht. reflexivity.
  - apply Hal. reflexivity.
Defined.

(** ** The authentication gate (C3) *)

(** C3, as amended: with no authenticated session,
    [get_recommended_events] and [Library.add_track] raise
    [AuthenticationRequiredError] and leave the state as it was (no request
    is sent, no lazy list is made); so does [recommended_artists] when the
    instance holds no cached value for it.  Its cache is outside the gate:
    a value stored by an earlier read is returned without asking for the
    session. *)
Theorem C3_auth_gate (api : Api) (self : user) (lib : library) limit trk art (s : State) :
  has_authenticated_session api = false →
  (∀ A (op : M A), Decorators.authenticate api op s = (Err AuthenticationRequiredError, s)) ∧
  (∀ m, mutate api m s = (Err AuthenticationRequiredError, s)) ∧
  Decorated.User.get_recommended_events api self limit s
    = (Err AuthenticationRequiredError, s) ∧
  Decorated.User.Library.add_track api lib trk art s
    = (Err AuthenticationRequiredError, s) ∧
  (unset s (user_oid self) "recommended_artists" →
   Decorated.User.recommended_artists api self s = (Err AuthenticationRequiredError, s)) ∧
  (∀ v, attrs s !! slot (user_oid self) "recommended_artists" = Some (Some v) →
   Decorated.User.recommended_artists api self s = (Ok v, s)).
Proof.
  intros Hoff.
  split; [|split; [|split; [|split; [|split]]]].
  - intros A op. unfold Decorators.authenticate. now rewrite Hoff.
  - intros [self' title d|self' trk' art'|self' alb art'|self' art'|self' trk' art'];
      cbn; unfold Decorated.User.create_playlist, Decorated.User.Playlist.add_track,
        Decorated.User.Library.add_album, Decorated.User.Library.add_artist,
        Decorated.User.Library.add_track, Decorators.authenticate;
      now rewrite Hoff.
  - unfold Decorated.User.get_recommended_events, Decorators.authenticate.
    now rewrite Hoff.
  - unfold Decorated.User.Library.add_track, Decorators.authenticate.
    now rewrite Hoff.
  - intros Hun. unfold Decorated.User.recommended_artists.
    apply cached_miss_err; [exact Hun|].
    unfold Decorators.authenticate. now rewrite Hoff.
  - intros v Hv. unfold Decorated.User.recommended_artists. now apply cached_hit.
Qed.

Lemma C3_witness :
  let api := Stub.api false (Stub.paged 3 2) in
  Decorated.User.get_recommended_events api Stub.rj None Stub.start
    = (Err AuthenticationRequiredError, Stub.start) ∧
  Decorated.User.recommended_artists api Stub.rj Stub.start
    = (Err AuthenticationRequiredError, Stub.start).
Proof.
  cbv zeta.
  pose proof (C3_auth_gate (Stub.api false (Stub.paged 3 2)) Stub.rj Stub.rj_library None
                (inr (PyStr "Hey Jude")) None Stub.start eq_refl)
    as (_ & _ & He & _ & Ha & _).
  split; [exact He|]. apply Ha. left. reflexivity.
Defined.

(** C3 as stated fails for [recommended_artists]: once a read with a
    session has cached the lazy list, a read without a session returns it
    instead of raising, and reading that list sends the three page
    requests. *)
Lemma C3_counterexample :
  let on := Stub.api true (Stub.paged 3 2) in
  let off := Stub.api false (Stub.paged 3 2) in
  let s1 := snd (Decorated.User.recommended_artists on Stub.rj Stub.start) in
  has_authenticated_session off = false ∧
  Decorated.User.recommended_artists off Stub.rj s1 = (Ok (CLazy 0), s1) ∧
  fetch_log s1 = [] ∧
  (length ∘ fetch_log ∘ snd) <$> LazyList.as_list off 7 0 s1 = Some 3%nat.
Proof. cbv zeta. repeat split; vm_compute; reflexivity. Qed.

(** ** Top item accessors (C9) *)

Lemma top_property_spec (m : M computed) (s : State) :
  Decorators.top_property (as_collection m) s =
    match m s with
    | (Ok (CList l), s') => (Ok (head l), s')
    | (Ok _, s') => (Err TypeError, s')
    | (Err e, s') => (Err e, s')
    end.
Proof.
  unfold Decorators.top_property, as_collection, bind, ret, raise.
  destruct (m s) as [[c|e] s']; [destruct c|]; reflexivity.
Qed.

Lemma read_top_spec api self a s :
  read_top api self a s =
    match read_backing api self a s with
    | (Ok (CList l), s') => (Ok (head l), s')
    | (Ok _, s') => (Err TypeError, s')
    | (Err e, s') => (Err e, s')
    end.
Proof. destruct a; apply top_property_spec. Qed.

Lemma read_backing_cached api self a s v :
  a ≠ MostRecentTrack →
  attrs s !! slot (user_oid self) (backing_name a) = Some (Some v) →
  read_backing api self a s = (Ok v, s).
Proof.
  intros Ha Hv. destruct a; try contradiction; now apply cached_hit.
Qed.

Lemma recent_tracks_fetches api self s :
  Py.truthy (user_name self) = true →
  fetch_log (snd (Decorated.User.recent_tracks api self s))
  = (fetch_log s ++ [recent_tracks_request self])%list.
Proof.
  intros Hn.
  unfold Decorated.User.recent_tracks, User.get_recent_tracks, User.listing,
    User.method_params, User._default_params, User.name, fetch_list, fmapM,
    bind, lift, ret, _fetch_data, recent_tracks_request.
  rewrite Hn. cbn.
  destruct (server api _) as [a|]; [|reflexivity].
  destruct (findall a); reflexivity.
Qed.

(** The body written under [@top_property("top_tracks")] reads the cached
    list twice and answers what the decorator answers from one read. *)
Lemma top_track_body_agrees api self s :
  Decorated.User.top_track_body api self s = Decorated.User.top_track api self s.
Proof.
  unfold Decorated.User.top_track. rewrite top_property_spec.
  unfold Decorated.User.top_track_body, as_collection, bind, ret, raise.
  destruct (Decorated.User.top_tracks api self s) as [[[l|loc|i]|e] s'] eqn:E;
    try reflexivity.
  destruct l as [|x l]; [reflexivity|]. cbn.
  unfold Decorated.User.top_tracks in *.
  now rewrite (cached_read_again _ _ _ _ _ _ E).
Qed.

(** C9, as amended: a top item accessor returns element 0 of the
    collection it names, [None] when that collection is empty, and does
    nothing but read that collection.  For [top_track], [top_album],
    [top_artist], [top_tag] and [nearest_neighbour] the collection is a
    cached property: once it holds a value the accessor sends no request
    and changes nothing.  [most_recent_track] reads [recent_tracks], a
    plain property: every read sends one more request, marked
    [no_cache]. *)
Theorem C9_top_accessors (api : Api) (self : user) (a : top_accessor) (s : State) :
  read_top api self a s =
    match read_backing api self a s with
    | (Ok (CList l), s') => (Ok (head l), s')
    | (Ok _, s') => (Err TypeError, s')
    | (Err e, s') => (Err e, s')
    end ∧
  (a ≠ MostRecentTrack →
   ∀ l, attrs s !! slot (user_oid self) (backing_name a) = Some (Some (CList l)) →
        read_top api self a s = (Ok (head l), s)) ∧
  (Py.truthy (user_name self) = true →
   fetch_log (snd (read_top api self MostRecentTrack s))
   = (fetch_log s ++ [recent_tracks_request self])%list).
Proof.
  split; [apply read_top_spec|]. split.
  - intros Ha l Hl. rewrite read_top_spec.
    now rewrite (read_backing_cached api self a s (CList l) Ha Hl).
  - intros Hn. rewrite read_top_spec. cbn [read_backing].
    pose proof (recent_tracks_fetches api self s Hn) as H.
    destruct (Decorated.User.recent_tracks api self s) as [[[l|loc|i]|e] s']; exact H.
Qed.

Lemma C9_witness :
  let api := Stub.api false Stub.down in
  let best := Built "Track" "Hey Jude" in
  let s := set_attrs {[slot 0 "top_tracks" := Some (CList [best; Built "Track" "Help!"])]}
             initial in
  read_top api Stub.rj TopTrack s = (Ok (Some best), s) ∧
  fetch_log (snd (read_top api Stub.rj MostRecentTrack s))
  = [recent_tracks_request Stub.rj].
Proof.
  intros api best s.
  destruct (C9_top_accessors api Stub.rj TopTrack s) as (_ & Hc & Hr).
  split.
  - apply (Hc ltac:(discriminate) [best; Built "Track" "Help!"]). reflexivity.
  - apply Hr. reflexivity.
Defined.

(** C9 as stated fails for [most_recent_track]: after a read of
    [recent_tracks] has fetched the collection, reading
    [most_recent_track] fetches it again, and so does reading it once
    more; nothing is cached. *)
Lemma C9_counterexample :
  let api := Stub.api false (Stub.paged 1 2) in
  let s1 := snd (Decorated.User.recent_tracks api Stub.rj Stub.start) in
  let s2 := snd (read_top api Stub.rj MostRecentTrack s1) in
  let s3 := snd (read_top api Stub.rj MostRecentTrack s2) in
  fst (read_top api Stub.rj MostRecentTrack s1) = Ok (Some (Built "Track" "1-a")) ∧
  length (fetch_log s1) = 1%nat ∧
  length (fetch_log s2) = 2%nat ∧
  length (fetch_log s3) = 3%nat ∧
  attrs s3 = ∅.
Proof. cbv zeta. repeat split; vm_compute; reflexivity. Qed.

(** ** Depagination (C2) *)

Section Depagination.

Lemma log_fetch_nil s : log_fetch [] s = s.
Proof. destruct s; unfold log_fetch; cbn. now rewrite app_nil_r. Qed.

Lemma log_fetch_app a b s : log_fetch b (log_fetch a s) = log_fetch (a ++ b) s.
Proof. unfold log_fetch; cbn. now rewrite app_assoc. Qed.



Ltac unfold_page :=
  unfold Depaginate.first_page, Depaginate.later_page, Depaginate.page_one,
    Depaginate.page_after, Depaginate.call,
    Venue.gen_first, Venue.gen_page, Venue.gen2,
    User.get_past_events, User.get_recommended_events, User.recommended_artists,
    User.Library.get_albums, User.Library.get_artists, User.Library.get_tracks,
    User.Library.get_page, try_except_LastfmError, page_body,
    request_of, items_of_page, class_of, plain_request,
    bind, ret, lift, raise, _fetch_data, total_pages, findall in *.



(** A first page that fails, outside [Library]: the error of the service
    comes out of the first call of [next()]. *)
Lemma first_page_fails api src r e s :
  (∀ f, src = PageFn f → catches f = false) →
  request_of src 1 = Ok r → server api r = Err e →
  Depaginate.first_page api src s = (Err e, log_fetch [r] s).
Proof.
  intros Hc Hr Hd.
  destruct src as [f|p];
    [specialize (Hc f eq_refl);
     destruct f as [self limit|self limit|self|self limit|self limit|self limit];
     try discriminate Hc
    |];
    unfold_page; cbn in Hr;
    repeat (case_match; simplify_eq; cbn in * );
    rewrite ?Hd in *; simplify_eq; cbn; rewrite ?Hd; reflexivity.
Qed.

Lemma as_list_first_page_fails api src r e s fuel :
  (∀ f, src = PageFn f → catches f = false) →
  request_of src 1 = Ok r → server api r = Err e →
  fst <$> LazyList.as_list api (S fuel) (length (heap s))
            (snd (new_lazylist (Paged src Init) s))
  = Some (Err e).
Proof.
  intros Hc Hr Hd. unfold LazyList.as_list, new_lazylist. cbn [snd heap set_heap].
  rewrite list_lookup_middle by reflexivity. cbn [gen seen LazyList.drain].
  cbn [LazyList.next Depaginate.next].
  rewrite (first_page_fails api src r e _ Hc Hr Hd). reflexivity.
Qed.










End Depagination.




(** ** Failing requests (C4) *)

Section FetchErrors.

Lemma no_self_append {A} (l : list A) (x : A) : l = (l ++ [x])%list → False.
Proof.
  intros H. apply (f_equal length) in H. rewrite length_app in H. cbn in H. lia.
Qed.

Lemma last_request (l : list request) (a b : request) :
  (l ++ [a])%list = (l ++ [b])%list → a = b.
Proof. intros H. apply app_inv_head in H. congruence. Qed.

(** Unfold a call site down to its request and settle the cases: no
    request was sent, or the one sent is the one that failed. *)
Ltac one_request Hlog Hsrv :=
  cbn in *;
  repeat (case_match; simplify_eq; cbn in * );
  first
    [ exfalso; apply no_self_append in Hlog; exact Hlog
    | apply last_request in Hlog; subst; congruence
    | congruence ].

Lemma listing_propagates api self method key v no_cache cls :
  propagates api (User.listing api self method key v no_cache cls).
Proof.
  intros s r e Hlog Hsrv.
  unfold User.listing, fetch_list, bind, lift, ret, _fetch_data in *.
  one_request Hlog Hsrv.
Qed.

Lemma weekly_chart_list_propagates api self :
  propagates api (User.weekly_chart_list api self).
Proof.
  intros s r e Hlog Hsrv.
  unfold User.weekly_chart_list, fetch_list, bind, lift, ret, _fetch_data in *.
  one_request Hlog Hsrv.
Qed.

Lemma get_weekly_chart_propagates api self method cls a b :
  propagates api (User.get_weekly_chart api self method cls a b).
Proof.
  intros s r e Hlog Hsrv.
  unfold User.get_weekly_chart, bind, lift, ret, _fetch_data in *.
  one_request Hlog Hsrv.
Qed.

Lemma venue_events_propagates api self : propagates api (Venue.events api self).
Proof.
  intros s r e Hlog Hsrv.
  unfold Venue.events, fetch_list, bind, lift, ret, _fetch_data in *.
  one_request Hlog Hsrv.
Qed.

Lemma venue_gen_propagates api p n :
  propagates api (Venue.gen_first api p) ∧ propagates api (Venue.gen_page api p n).
Proof.
  split; intros s r e Hlog Hsrv;
    unfold Venue.gen_first, Venue.gen_page, total_pages, bind, lift, ret, _fetch_data in *;
    one_request Hlog Hsrv.
Qed.

Lemma page_fn_propagates api f pg :
  catches f = false → propagates api (Depaginate.call api f pg).
Proof.
  intros Hc s r e Hlog Hsrv.
  destruct f; try discriminate Hc;
    unfold Depaginate.call, User.get_past_events, User.get_recommended_events,
      User.recommended_artists, page_body, total_pages, bind, lift, ret, _fetch_data in *;
    one_request Hlog Hsrv.
Qed.

Lemma get_authenticated_user_propagates api :
  propagates api (User.get_authenticated_user api).
Proof.
  intros s r e Hlog Hsrv.
  unfold User.get_authenticated_user, bind, lift, _fetch_data in *.
  one_request Hlog Hsrv.
Qed.

(** [authenticated] catches [AuthenticationFailedError] and nothing
    else. *)
Lemma authenticated_propagates api self s e :
  snd (authenticated_user api) = Err e → e ≠ AuthenticationFailedError →
  fst (User.authenticated api self s) = Err e.
Proof.
  intros He Hne. unfold User.authenticated, get_authenticated_user, helper.
  rewrite He. destruct e; try reflexivity. contradiction.
Qed.

(** The helpers of the client are called outside any [try]. *)
Lemma search_propagates api pl lib v s e :
  (snd (track_search api v) = Err e →
   fst (User.Playlist.add_track api pl (inr v) None s) = Err e ∧
   fst (User.Library.add_track api lib (inr v) None s) = Err e) ∧
  (snd (album_search api v) = Err e →
   fst (User.Library.add_album api lib (inr v) None s) = Err e).
Proof.
  unfold User.Playlist.add_track, User.Library.add_track, User.Library.add_album,
    work_params, search_track, search_album, helper, bind.
  split; [intros H; split|intros H]; now rewrite H.
Qed.

Lemma tag_chart_propagates api self a b s e :
  snd (weekly_tag_chart api self a b) = Err e →
  (∃ p, check_weekly_chart_params api ∅ a b = Ok p) →
  fst (User.get_weekly_tag_chart api self a b s) = Err e.
Proof.
  intros H [p Hp]. unfold User.get_weekly_tag_chart, bind, lift, helper.
  now rewrite Hp.
Qed.

Lemma page_fn_swallows api f pg :
  catches f = true → swallows api (Depaginate.call api f pg).
Proof.
  intros Hc s r e Hlog Hsrv Hl.
  destruct f; try discriminate Hc;
    unfold Depaginate.call, User.Library.get_albums, User.Library.get_artists,
      User.Library.get_tracks, User.Library.get_page, try_except_LastfmError,
      page_body, total_pages, bind, lift, ret, _fetch_data in *;
    one_request Hlog Hsrv.
Qed.

End FetchErrors.

Section WeeklyCharts.

(** The outcome of fetching one week's chart does not depend on the
    state. *)
Lemma week_outcome_any_state api self k wc s :
  fst (User.get_chart_of_kind api self k (week_start wc) (week_end wc) s)
  = week_outcome api self k wc.
Proof.
  unfold week_outcome.
  destruct k; cbn;
    unfold User.get_weekly_album_chart, User.get_weekly_artist_chart,
      User.get_weekly_track_chart, User.get_weekly_tag_chart, User.get_weekly_chart,
      bind, lift, ret, _fetch_data, helper;
    cbn; repeat (case_match; simplify_eq; cbn in * ); reflexivity.
Qed.

(** A week that fails with an error of the library is skipped. *)
Lemma next_skips_week api k self wc rest s e s' :
  User.get_chart_of_kind api self k (week_start wc) (week_end wc) s = (Err e, s') →
  is_LastfmError e = true →
  LazyList.next api (Weekly k self (wc :: rest)) s
  = LazyList.next api (Weekly k self rest) s'.
Proof. intros H Hl. cbn. now rewrite H, Hl. Qed.

Lemma drain_weeks api k self : ∀ todo s fuel,
  (∀ wc e, wc ∈ todo → week_outcome api self k wc = Err e → is_LastfmError e = true) →
  (length todo < fuel)%nat →
  ∃ s', LazyList.drain api fuel (Weekly k self todo) s
        = Some (successes (map (week_outcome api self k) todo), None,
                Weekly k self [], s').
Proof.
  induction todo as [|wc rest IH]; intros s fuel Hok Hfuel;
    (destruct fuel as [|fuel]; [cbn in Hfuel; lia|]).
  - exists s. reflexivity.
  - pose proof (week_outcome_any_state api self k wc s) as Hout.
    destruct (User.get_chart_of_kind api self k (week_start wc) (week_end wc) s)
      as [[c|e] s1] eqn:E; cbn in Hout.
    + destruct (IH s1 fuel) as [s' Hs'];
        [intros wc' e' Hin' Hout'; apply (Hok wc' e'); [now right|exact Hout'] | cbn in Hfuel; lia |].
      exists s'. cbn [LazyList.drain LazyList.next weekly_next].
      rewrite E, Hs'. cbn [map successes omap]. now rewrite <- Hout.
    + assert (Hl : is_LastfmError e = true) by (apply (Hok wc e); [now left|now symmetry]).
      destruct (IH s1 (S fuel)) as [s' Hs'];
        [intros wc' e' Hin' Hout'; apply (Hok wc' e'); [now right|exact Hout'] | cbn in Hfuel; lia |].
      exists s'. cbn [LazyList.drain] in *.
      rewrite (next_skips_week _ _ _ _ _ _ _ _ E Hl).
      cbn [map successes omap]. rewrite <- Hout. exact Hs'.
Qed.

End WeeklyCharts.

(** C4, as amended.  The failure of a request reaches the caller as it is
    from every plain listing of [User], from [weekly_chart_list], from the
    getters of one weekly chart, from [Venue.events], from the generator of
    [Venue.get_past_events], from the page functions [get_past_events],
    [get_recommended_events] and [recommended_artists] and from the static
    [get_authenticated_user]; a listing made from one of these page
    functions raises it when its first page is asked for.  [authenticated]
    lets through every failure of the client but
    [AuthenticationFailedError], so a [FetchError] too; so do the
    [add_*] operations for the search they make, [get_weekly_tag_chart]
    and [compare] for the helper they call.  The page
    functions of [Library] ([get_albums], [get_artists], [get_tracks]) catch it and
    return without yielding.  A [weekly_*_chart_list], once the list of
    weeks is there, raises nothing at the call and, read to its end, gives
    the charts of exactly the weeks whose fetch succeeds, in the order of
    the list of weeks reversed, when every failing week fails with a
    [FetchError]. *)
Theorem C4_fetch_errors (api : Api) (self : user) (v : venue) :
  (∀ method key val no_cache cls,
      propagates api (User.listing api self method key val no_cache cls)) ∧
  propagates api (User.weekly_chart_list api self) ∧
  (∀ method cls a b, propagates api (User.get_weekly_chart api self method cls a b)) ∧
  propagates api (Venue.events api v) ∧
  (∀ p n, propagates api (Venue.gen_first api p) ∧ propagates api (Venue.gen_page api p n)) ∧
  (∀ f pg, catches f = false → propagates api (Depaginate.call api f pg)) ∧
  propagates api (User.get_authenticated_user api) ∧
  (∀ s e, snd (authenticated_user api) = Err e → e ≠ AuthenticationFailedError →
     fst (User.authenticated api self s) = Err e) ∧
  (∀ pl lib val s e,
     (snd (track_search api val) = Err e →
      fst (User.Playlist.add_track api pl (inr val) None s) = Err e ∧
      fst (User.Library.add_track api lib (inr val) None s) = Err e) ∧
     (snd (album_search api val) = Err e →
      fst (User.Library.add_album api lib (inr val) None s) = Err e)) ∧
  (∀ a b s e,
     snd (weekly_tag_chart api self a b) = Err e →
     (∃ p, check_weekly_chart_params api ∅ a b = Ok p) →
     fst (User.get_weekly_tag_chart api self a b s) = Err e) ∧
  (∀ other limit s e,
     snd (tasteometer_compare api (user_name self)
            (match other with inl u => user_name u | inr val => Some val end) limit)
     = Err e →
     fst (User.compare api self other limit s) = Err e) ∧
  (∀ src r e s fuel,
      (∀ f, src = PageFn f → catches f = false) →
      request_of src 1 = Ok r → server api r = Err e →
      fst <$> LazyList.as_list api (S fuel) (length (heap s))
                (snd (new_lazylist (Paged src Init) s))
      = Some (Err e)) ∧
  (∀ f pg, catches f = true → swallows api (Depaginate.call api f pg)) ∧
  (∀ k wcl s s1 fuel,
      unset s (user_oid self) (Decorated.User.chart_list_name k) →
      as_collection (Decorated.User.weekly_chart_list api self) s = (Ok wcl, s1) →
      (∀ wc e, wc ∈ wcl → week_outcome api self k wc = Err e → ∃ code, e = FetchError code) →
      (length wcl < fuel)%nat →
      ∃ s2 s3,
        Decorated.User.weekly_chart_list_of k api self s
          = (Ok (CLazy (length (heap s1))), s2) ∧
        LazyList.as_list api fuel (length (heap s1)) s2
          = Some (Ok (successes (map (week_outcome api self k) (rev wcl))), s3)).
Proof.
  split; [intros; apply listing_propagates|].
  split; [apply weekly_chart_list_propagates|].
  split; [intros; apply get_weekly_chart_propagates|].
  split; [apply venue_events_propagates|].
  split; [intros; apply venue_gen_propagates|].
  split; [intros; now apply page_fn_propagates|].
  split; [apply get_authenticated_user_propagates|].
  split; [intros; now apply authenticated_propagates|].
  split; [intros; apply search_propagates|].
  split; [intros; now apply tag_chart_propagates|].
  split; [intros other limit s e H; unfold User.compare, helper; exact H|].
  split; [intros src r e s fuel Hc Hr Hd; now apply (as_list_first_page_fails api src r e s fuel)|].
  split; [intros; now apply page_fn_swallows|].
  intros k wcl s s1 fuel Hun Hwcl Hfail Hfuel.
  set (l0 := {| seen := []; gen := Weekly k self (rev wcl) |}).
  set (loc := length (heap s1)).
  set (s2 := set_attrs (<[slot (user_oid self) (Decorated.User.chart_list_name k)
                          := Some (CLazy loc)]> (attrs s1))
               (set_heap (heap s1 ++ [l0]) s1)).
  destruct (drain_weeks api k self (rev wcl) s2 fuel) as [s' Hs'].
  { intros wc e Hin Hout.
    apply list_elem_of_In, in_rev, list_elem_of_In in Hin.
    destruct (Hfail wc e Hin Hout) as [code ->]. reflexivity. }
  { now rewrite length_rev. }
  exists s2. eexists. split.
  - unfold Decorated.User.weekly_chart_list_of.
    apply (cached_miss _ _ _ _ _ (set_heap (heap s1 ++ [l0]) s1)); [exact Hun|].
    unfold bind at 1. rewrite Hwcl. reflexivity.
  - unfold LazyList.as_list.
    assert (Hlook : heap s2 !! loc = Some l0)
      by (subst s2; cbn [heap set_attrs set_heap]; now apply list_lookup_middle).
    rewrite Hlook. cbn [gen seen l0]. rewrite Hs'. reflexivity.
Qed.

Lemma C4_witness :
  let api := Stub.weekly_api in
  let chart := fun w => Chart "WeeklyAlbumChart" (Some {| totalPages := Missing; children := [w] |}) in
  ∃ s2 s3,
    Decorated.User.weekly_album_chart_list api Stub.rj Stub.start = (Ok (CLazy 0), s2) ∧
    LazyList.as_list api 6 0 s2
      = Some (Ok [chart "w5"; chart "w4"; chart "w2"; chart "w1"], s3).
Proof.
  intros api chart.
  destruct (C4_fetch_errors api Stub.rj Stub.cargo)
    as (_ & _ & _ & _ & _ & _ & _ & _ & _ & _ & _ & _ & _ & H).
  apply (H AlbumChart
           [Week (Some (PyStr "w1")) (Some (PyStr "w1"));
            Week (Some (PyStr "w2")) (Some (PyStr "w2"));
            Week (Some (PyStr "w3")) (Some (PyStr "w3"));
            Week (Some (PyStr "w4")) (Some (PyStr "w4"));
            Week (Some (PyStr "w5")) (Some (PyStr "w5"))]
           Stub.start
           (snd (as_collection (Decorated.User.weekly_chart_list api Stub.rj) Stub.start))
           6%nat).
  - left. reflexivity.
  - reflexivity.
  - intros wc e Hin. repeat (apply elem_of_cons in Hin as [-> | Hin]).
    + discriminate.
    + discriminate.
    + intros [= <-]. now exists 8.
    + discriminate.
    + discriminate.
    + apply elem_of_nil in Hin. contradiction.
  - cbn. lia.
Defined.

(** C4 as stated fails outside the weekly chart lists: with the service
    down, the page function [Library.get_tracks] raises nothing, and the
    listing made from it is empty when read, while [User.get_past_events]
    raises the error of the service. *)
Lemma C4_counterexample :
  let api := Stub.api false Stub.down in
  (∀ r, server api r = Err (FetchError 8)) ∧
  fst (User.Library.get_tracks api Stub.rj_library None None Stub.start) = Ok [] ∧
  length (fetch_log (snd (User.Library.get_tracks api Stub.rj_library None None Stub.start)))
    = 1%nat ∧
  fst <$> LazyList.as_list api 1 0
            (snd (Decorated.User.Library.get_tracks api Stub.rj_library None Stub.start))
    = Some (Ok []) ∧
  fst (User.get_past_events api Stub.rj None None Stub.start) = Err (FetchError 8).
Proof.
  cbv zeta. split; [intros r; reflexivity|].
  split; [vm_compute; reflexivity|].
  split; [vm_compute; reflexivity|].
  split; vm_compute; reflexivity.
Qed.

(** * Further properties of the code *)

(** ** Identity hashes look at one field *)

Lemma int_hash_inj (a b : Z) :
  long a → long b → a ≠ -1 → b ≠ -1 → Py.int_hash a = Py.int_hash b → a = b.
Proof.
  unfold long, Py.int_hash, Py.not_minus_one, Py.wrap64. intros Ha Hb Ha1 Hb1.
  rewrite !(Z.mod_small _ (2 ^ 64)) by lia.
  destruct (Z.eqb_spec (a + 2 ^ 63 - 2 ^ 63) (-1)), (Z.eqb_spec (b + 2 ^ 63 - 2 ^ 63) (-1));
    lia.
Qed.

(** X1: the identity hash of a user, a venue or a playlist is decided by
    its identity field alone: two calls that give the field the same
    value get the same hash, whatever their positional arguments and
    their other keywords.  For a field that holds a machine integer other
    than -1, as the id of a playlist does, the hash also decides the
    field: different ids never share a hash.  (-1 alone does, with -2.) *)
Theorem X1_identity_hash (c : entity_class) (args args' : list value)
    (kwds kwds' : kwargs) :
  (∀ v, hash_func c args (<[identity_field c := v]> kwds)
        = hash_func c args' (<[identity_field c := v]> kwds')) ∧
  (∀ a b, long a → long b → a ≠ -1 → b ≠ -1 →
     hash_func c args (<[identity_field c := PyInt a]> kwds)
     = hash_func c args' (<[identity_field c := PyInt b]> kwds') →
     a = b).
Proof.
  assert (H : ∀ l v k, hash_func c l (<[identity_field c := v]> k) = Ok (Py.hash v)).
  { intros l v k. destruct c; cbn;
      unfold User._hash_func, Venue._hash_func, User.Playlist._hash_func, hash_of_field;
      now rewrite lookup_insert_eq. }
  split.
  - intros v. now rewrite !H.
  - intros a b Ha Hb Ha1 Hb1. rewrite !H. intros [= E].
    now apply int_hash_inj.
Qed.

Lemma X1_witness :
  hash_func ClsUser [] {["name" := PyStr "rj"]}
  = hash_func ClsUser [PyStr "api"]
      (<["name" := PyStr "rj"]> {["real_name" := PyStr "Richard Jones"]}).
Proof.
  destruct (X1_identity_hash ClsUser [] [PyStr "api"] ∅
              {["real_name" := PyStr "Richard Jones"]}) as [H _].
  exact (H (PyStr "rj")).
Defined.

(** ** Users are ordered by name *)

Section Ordering.

Lemma ord_inj x y : Py.ord x = Py.ord y → x = y.
Proof.
  unfold Py.ord. intros H. apply N2Z.inj in H.
  rewrite <- (ascii_N_embedding x), <- (ascii_N_embedding y). now rewrite H.
Qed.

Lemma str_ltb_irrefl a : Py.str_ltb a a = false.
Proof.
  induction a as [|x a IH]; cbn; [reflexivity|].
  rewrite Z.ltb_irrefl. exact IH.
Qed.

Lemma str_ltb_asym : ∀ a b, Py.str_ltb a b = true → Py.str_ltb b a = false.
Proof.
  induction a as [|x a IH]; intros [|y b]; cbn; try congruence.
  destruct (Z.ltb_spec (Py.ord x) (Py.ord y)), (Z.ltb_spec (Py.ord y) (Py.ord x));
    try lia; try congruence. apply IH.
Qed.

Lemma str_ltb_total : ∀ a b,
  Py.str_ltb a b = false → Py.str_ltb b a = false → a = b.
Proof.
  induction a as [|x a IH]; intros [|y b]; cbn; try congruence.
  destruct (Z.ltb_spec (Py.ord x) (Py.ord y)), (Z.ltb_spec (Py.ord y) (Py.ord x));
    try lia; try congruence.
  intros Hab Hba. f_equal; [apply ord_inj; lia|now apply IH].
Qed.

Lemma str_ltb_trans : ∀ a b c,
  Py.str_ltb a b = true → Py.str_ltb b c = true → Py.str_ltb a c = true.
Proof.
  induction a as [|x a IH]; intros [|y b] [|z c]; cbn; try congruence.
  destruct (Z.ltb_spec (Py.ord x) (Py.ord y)), (Z.ltb_spec (Py.ord y) (Py.ord x)),
    (Z.ltb_spec (Py.ord y) (Py.ord z)), (Z.ltb_spec (Py.ord z) (Py.ord y)),
    (Z.ltb_spec (Py.ord x) (Py.ord z)), (Z.ltb_spec (Py.ord z) (Py.ord x));
    try lia; try congruence. apply IH.
Qed.

Lemma py_ltb_asym v w : Py.ltb v w = true → Py.ltb w v = false.
Proof.
  destruct v, w; cbn; try congruence.
  - intros H. apply Z.ltb_lt in H. apply Z.ltb_ge. lia.
  - apply str_ltb_asym.
Qed.

Lemma py_ltb_total v w : Py.ltb v w = false → Py.ltb w v = false → v = w.
Proof.
  destruct v, w; cbn; try congruence.
  - intros H1 H2. apply Z.ltb_ge in H1, H2. f_equal. lia.
  - intros H1 H2. f_equal. now apply str_ltb_total.
Qed.

Lemma py_ltb_trans u v w : Py.ltb u v = true → Py.ltb v w = true → Py.ltb u w = true.
Proof.
  destruct u, v, w; cbn; try congruence.
  - intros H1 H2. apply Z.ltb_lt in H1, H2. apply Z.ltb_lt. lia.
  - apply str_ltb_trans.
Qed.

Lemma py_opt_ltb_asym a b : Py.opt_ltb a b = true → Py.opt_ltb b a = false.
Proof. destruct a, b; cbn; try congruence. apply py_ltb_asym. Qed.

Lemma py_opt_ltb_total a b :
  Py.opt_ltb a b = false → Py.opt_ltb b a = false → a = b.
Proof.
  destruct a, b; cbn; try congruence.
  intros H1 H2. f_equal. now apply py_ltb_total.
Qed.

Lemma py_opt_ltb_trans a b c :
  Py.opt_ltb a b = true → Py.opt_ltb b c = true → Py.opt_ltb a c = true.
Proof. destruct a, b, c; cbn; try congruence. apply py_ltb_trans. Qed.

End Ordering.

(** X2: [==] on users is an equivalence and [<] a strict order that
    agrees with it: of [a < b], [a == b] and [b < a] exactly one holds,
    [<] is transitive, and equal users stand in the same order to every
    other user.  (So sorting users sorts them by name, a user without a
    name first, numbers before strings.) *)
Theorem X2_user_order (a b c : user) :
  User.__eq__ a a = true ∧
  User.__eq__ a b = User.__eq__ b a ∧
  (User.__eq__ a b = true → User.__eq__ b c = true → User.__eq__ a c = true) ∧
  ((User.__lt__ a b = true ∧ User.__eq__ a b = false ∧ User.__lt__ b a = false) ∨
   (User.__lt__ a b = false ∧ User.__eq__ a b = true ∧ User.__lt__ b a = false) ∨
   (User.__lt__ a b = false ∧ User.__eq__ a b = false ∧ User.__lt__ b a = true)) ∧
  (User.__lt__ a b = true → User.__lt__ b c = true → User.__lt__ a c = true) ∧
  (User.__eq__ a b = true →
   User.__lt__ a c = User.__lt__ b c ∧ User.__lt__ c a = User.__lt__ c b).
Proof.
  unfold User.__eq__, User.__lt__, User.name.
  set (x := user_name a). set (y := user_name b). set (z := user_name c).
  assert (Hneq : ∀ p q, p ≠ q → Py.opt_eqb p q = false).
  { intros p q Hpq. destruct (Py.opt_eqb p q) eqn:E; [|reflexivity].
    apply py_opt_eqb_eq in E. contradiction. }
  split; [apply py_opt_eqb_refl|].
  split.
  { destruct (Py.opt_eqb x y) eqn:E.
    - apply py_opt_eqb_eq in E. rewrite E. symmetry. apply py_opt_eqb_refl.
    - destruct (Py.opt_eqb y x) eqn:E'; [|reflexivity].
      apply py_opt_eqb_eq in E'. rewrite E', py_opt_eqb_refl in E. discriminate. }
  split.
  { intros H1 H2. apply py_opt_eqb_eq in H1, H2. apply py_opt_eqb_eq. congruence. }
  split.
  { destruct (Py.opt_ltb x y) eqn:Lxy.
    - left. pose proof (py_opt_ltb_asym x y Lxy) as Lyx. repeat split; [|exact Lyx].
      apply Hneq. intros ->. rewrite Lxy in Lyx. discriminate.
    - destruct (Py.opt_ltb y x) eqn:Lyx.
      + right. right. repeat split.
        apply Hneq. intros ->. rewrite Lxy in Lyx. discriminate.
      + right. left. repeat split. apply py_opt_eqb_eq.
        now apply py_opt_ltb_total. }
  split; [apply py_opt_ltb_trans|].
  intros E. apply py_opt_eqb_eq in E. now rewrite E.
Qed.

Lemma X2_witness :
  let mxcl := {| user_oid := 3; user_name := Some (PyStr "mxcl"); user_real_name := None;
                 user_url := None; user_image := None; user_stats := None |} in
  User.__lt__ mxcl Stub.rj = true ∧ User.__eq__ mxcl Stub.rj = false ∧
  User.__lt__ Stub.rj mxcl = false.
Proof.
  intros mxcl.
  destruct (X2_user_order mxcl Stub.rj Stub.rj) as (_ & _ & _ & [H | [H | H]] & _).
  - exact H.
  - destruct H as (H & _). discriminate H.
  - destruct H as (_ & _ & H). discriminate H.
Defined.

(** ** Instances without a name *)

(** X3: a user whose name is missing or empty ([None], [""], [0]) cannot
    be asked for anything that is fetched by name: every plain listing
    ([events], [get_friends], [get_neighbours], [playlists],
    [loved_tracks], [get_recent_tracks], [get_top_albums],
    [get_top_artists], [get_top_tracks], [get_top_tags]),
    [weekly_chart_list], the weekly album, artist and track charts,
    [get_past_events] and the three listings of the library raise
    [InvalidParametersError] before any request is sent, and nothing
    changes.  In the library the check stands before the [try], so the
    [except LastfmError] does not silence it.  The same holds for a venue
    without an id, where [get_past_events] fails at the call and makes no
    list. *)
Theorem X3_no_name_no_request (api : Api) (s : State) :
  (∀ self : user, Py.truthy (User.name self) = false →
     (∀ method key v no_cache cls,
        refused "user has to be provided."
          (User.listing api self method key v no_cache cls) s) ∧
     refused "user has to be provided." (User.weekly_chart_list api self) s ∧
     (∀ method cls a b,
        refused "user has to be provided."
          (User.get_weekly_chart api self method cls a b) s) ∧
     (∀ limit pg,
        refused "user has to be provided." (User.get_past_events api self limit pg) s) ∧
     (∀ lib method cls limit pg, User.Library.user lib = self →
        refused "user has to be provided."
          (User.Library.get_page api lib method cls limit pg) s)) ∧
  (∀ v : venue, Py.truthy (Venue.id v) = false →
     refused "venue id has to be provided." (Venue.events api v) s ∧
     (∀ limit,
        refused "venue id has to be provided." (Venue.get_past_events api v limit) s)).
Proof.
  split.
  - intros self H. unfold refused.
    repeat match goal with |- _ ∧ _ => split end; intros.
    + unfold User.listing, User.method_params, User._default_params, bind, lift.
      now rewrite H.
    + unfold User.weekly_chart_list, User.method_params, User._default_params, bind, lift.
      now rewrite H.
    + unfold User.get_weekly_chart, User.method_params, User._default_params, bind, lift.
      now rewrite H.
    + unfold User.get_past_events, User.method_params, User._default_params, bind, lift.
      now rewrite H.
    + subst self.
      unfold User.Library.get_page, User.Library._default_params, bind, lift.
      now rewrite H.
  - intros v H. unfold refused. split; intros.
    + unfold Venue.events, Venue._default_params, bind, lift. now rewrite H.
    + unfold Venue.get_past_events, Venue._default_params, bind, lift. now rewrite H.
Qed.

Lemma X3_witness :
  let nobody := {| user_oid := 4; user_name := Some (PyStr ""); user_real_name := None;
                   user_url := None; user_image := None; user_stats := None |} in
  let lib := {| library_oid := 5; library_user := nobody |} in
  User.Library.get_tracks (Stub.api true (Stub.paged 3 2)) lib None None Stub.start
  = (Err (InvalidParametersError "user has to be provided."), Stub.start).
Proof.
  intros nobody lib.
  destruct (X3_no_name_no_request (Stub.api true (Stub.paged 3 2)) Stub.start)
    as [H _].
  destruct (H nobody eq_refl) as (_ & _ & _ & _ & Hlib).
  exact (Hlib lib "library.getTracks" "Track" None None eq_refl).
Defined.

(** ** Reading sends one request and changes nothing *)

Section ReadOnly.

Lemma reads_only_one {A} signed (m : M A) :
  (∀ s, snd (m s) = s ∨
        ∃ p nc, snd (m s) = log_fetch [{| req_params := p; req_sign := signed;
                                          req_session := signed; req_no_cache := nc |}] s) →
  reads_only signed m.
Proof.
  intros H s. destruct (H s) as [E | (p & nc & E)]; rewrite E.
  - repeat split. now left.
  - repeat split. right. eexists. split; [reflexivity|]. now split.
Qed.

Lemma fetch_list_one api p nc mk s :
  snd (fetch_list api p nc mk s)
  = log_fetch [{| req_params := p; req_sign := false; req_session := false;
                  req_no_cache := nc |}] s.
Proof.
  unfold fetch_list, bind, _fetch_data, lift, ret.
  destruct (server api _) as [d|]; [|reflexivity]. now destruct (findall d).
Qed.

Lemma page_body_one api p sg cls s :
  snd (page_body api p sg sg cls s)
  = log_fetch [{| req_params := p; req_sign := sg; req_session := sg;
                  req_no_cache := false |}] s.
Proof.
  unfold page_body, bind, _fetch_data, lift, ret.
  destruct (server api _) as [d|]; [|reflexivity].
  destruct (total_pages d); [|reflexivity]. now destruct (findall d).
Qed.

Lemma library_page_one api p sg cls s :
  snd (try_except_LastfmError (page_body api p sg sg cls) (ret []) s)
  = log_fetch [{| req_params := p; req_sign := sg; req_session := sg;
                  req_no_cache := false |}] s.
Proof.
  pose proof (page_body_one api p sg cls s) as H.
  unfold try_except_LastfmError.
  destruct (page_body api p sg sg cls s) as [[ys|e] s1]; cbn in H; subst s1;
    [reflexivity|].
  now destruct (is_LastfmError e).
Qed.

(** A page function checks its instance and then runs the shared body,
    the library's inside its [try]. *)
Lemma call_shape api f pg s :
  (∃ e, Depaginate.call api f pg s = (Err e, s)) ∨
  ∃ p cls,
    Depaginate.call api f pg s
    = (if catches f
       then try_except_LastfmError
              (page_body api p (for_session f) (for_session f) cls) (ret [])
       else page_body api p (for_session f) (for_session f) cls) s.
Proof.
  destruct f; cbn [Depaginate.call for_session catches].
  - unfold User.get_past_events, bind at 1, lift.
    destruct (User.method_params self _) as [p|e]; [|left; now eexists].
    right. now do 2 eexists.
  - right. now do 2 eexists.
  - right. now do 2 eexists.
  - unfold User.Library.get_albums, User.Library.get_page, bind at 1, lift.
    destruct (User.Library._default_params self _) as [p|e]; [|left; now eexists].
    right. now do 2 eexists.
  - unfold User.Library.get_artists, User.Library.get_page, bind at 1, lift.
    destruct (User.Library._default_params self _) as [p|e]; [|left; now eexists].
    right. now do 2 eexists.
  - unfold User.Library.get_tracks, User.Library.get_page, bind at 1, lift.
    destruct (User.Library._default_params self _) as [p|e]; [|left; now eexists].
    right. now do 2 eexists.
Qed.

End ReadOnly.

(** X4: the operations that read from the service never post, never write
    an attribute of an instance (so they reset no cached property) and
    touch no lazy list; one call sends one request at most; and the only
    requests that are signed and made for the session are those of
    [get_recommended_events] and [recommended_artists]. *)
Theorem X4_reading_changes_nothing (api : Api) (self : user) (v : venue) :
  (∀ method key val no_cache cls,
      reads_only false (User.listing api self method key val no_cache cls)) ∧
  reads_only false (User.weekly_chart_list api self) ∧
  (∀ method cls a b, reads_only false (User.get_weekly_chart api self method cls a b)) ∧
  reads_only false (Venue.events api v) ∧
  (∀ p n, reads_only false (Venue.gen_first api p) ∧
          reads_only false (Venue.gen_page api p n)) ∧
  (∀ f pg, reads_only (for_session f) (Depaginate.call api f pg)).
Proof.
  repeat match goal with |- _ ∧ _ => split end; intros.
  - apply reads_only_one. intros s.
    unfold User.listing, bind at 1, lift.
    destruct (User.method_params self method) as [p|e]; [|now left].
    right. do 2 eexists. apply fetch_list_one.
  - apply reads_only_one. intros s.
    unfold User.weekly_chart_list, bind at 1, lift.
    destruct (User.method_params self _) as [p|e]; [|now left].
    right. do 2 eexists. apply fetch_list_one.
  - apply reads_only_one. intros s.
    unfold User.get_weekly_chart, bind, lift.
    destruct (User.method_params self method) as [p|e]; [|now left].
    destruct (check_weekly_chart_params api p a b) as [p'|e]; [|now left].
    right. do 2 eexists. unfold _fetch_data, ret. now destruct (server api _).
  - apply reads_only_one. intros s.
    unfold Venue.events, bind at 1, lift.
    destruct (Venue._default_params v _) as [p|e]; [|now left].
    right. do 2 eexists. apply fetch_list_one.
  - split.
    + apply reads_only_one. intros s. right. do 2 eexists.
      unfold Venue.gen_first, bind, _fetch_data, lift, ret.
      destruct (server api _) as [d|]; [|reflexivity].
      destruct (total_pages d); [|reflexivity]. now destruct (Venue.gen2 d).
    + apply reads_only_one. intros s. right. do 2 eexists.
      unfold Venue.gen_page, bind, _fetch_data, lift.
      destruct (server api _) as [d|]; [|reflexivity]. now destruct (Venue.gen2 d).
  - apply reads_only_one. intros s.
    destruct (call_shape api f pg s) as [[e E] | (p & cls & E)]; rewrite E; [now left|].
    right. do 2 eexists.
    destruct (catches f); [apply library_page_one | apply page_body_one].
Qed.

(** ** Answers without a page count *)

(** X5: every page function reads [totalPages] from each answer it gets,
    whatever the page.  An answer it cannot be read from makes the call
    raise: [AttributeError] when the answer has no container, [KeyError]
    when the container has no such attribute, [ValueError] when it is no
    number.  None of them is an error of the library, so the library's
    [except LastfmError] does not catch them.  The generator of
    [Venue.get_past_events] reads it from the first answer alone: a later
    page whose container lacks it gives its events all the same. *)
Theorem X5_answer_without_total_pages (api : Api) (data : option page) (e : error) :
  total_pages data = Err e →
  (∀ f pg s r,
     fetch_log (snd (Depaginate.call api f pg s)) = (fetch_log s ++ [r])%list →
     server api r = Ok data →
     fst (Depaginate.call api f pg s) = Err e) ∧
  (∀ p s, server api (venue_request p 1) = Ok data →
     fst (Venue.gen_first api p s) = Err e) ∧
  (∀ p n s d, n ≠ 1 → data = Some d → server api (venue_request p n) = Ok data →
     fst (Venue.gen_page api p n s) = Ok (map (Built "Event") (children d))) ∧
  is_LastfmError e = false ∧
  (data = None ∧ e = AttributeError ∨
   ∃ d, data = Some d ∧
        (totalPages d = Missing ∧ e = KeyError "totalPages" ∨
         totalPages d = NotANumber ∧ e = ValueError)).
Proof.
  intros Hd.
  assert (Hcls : is_LastfmError e = false ∧
                 (data = None ∧ e = AttributeError ∨
                  ∃ d, data = Some d ∧
                       (totalPages d = Missing ∧ e = KeyError "totalPages" ∨
                        totalPages d = NotANumber ∧ e = ValueError))).
  { unfold total_pages in Hd. destruct data as [d|].
    - destruct (totalPages d) eqn:Ht; simplify_eq; (split; [reflexivity|]);
        right; exists d; split; [reflexivity| |reflexivity|]; [now left|now right].
    - simplify_eq. split; [reflexivity|]. now left. }
  assert (Hbody : ∀ p sg cls s,
             server api (plain_request p sg sg) = Ok data →
             page_body api p sg sg cls s
             = (Err e, log_fetch [plain_request p sg sg] s)).
  { intros p sg cls s Hsrv.
    unfold page_body, bind, _fetch_data, lift. fold (plain_request p sg sg).
    now rewrite Hsrv, Hd. }
  assert (Hlast : ∀ s p sg r,
             fetch_log (log_fetch [plain_request p sg sg] s) = (fetch_log s ++ [r])%list →
             r = plain_request p sg sg).
  { intros s p sg r H. cbn in H. symmetry. eapply last_request, H. }
  split; [|split; [|split]].
  - intros f pg s r Hlog Hsrv.
    destruct (call_shape api f pg s) as [[e' E] | (p & cls & E)]; rewrite E in *;
      [cbn in Hlog; now apply no_self_append in Hlog|].
    destruct (catches f).
    + rewrite library_page_one in Hlog. apply Hlast in Hlog. subst r.
      unfold try_except_LastfmError. rewrite Hbody by exact Hsrv.
      now rewrite (proj1 Hcls).
    + rewrite page_body_one in Hlog. apply Hlast in Hlog. subst r.
      now rewrite Hbody.
  - intros p s Hsrv. unfold venue_request in Hsrv. cbn in Hsrv.
    unfold Venue.gen_first, bind, _fetch_data, lift.
    fold (plain_request p false false). now rewrite Hsrv, Hd.
  - intros p n s d Hn -> Hsrv. unfold venue_request in Hsrv.
    apply Z.eqb_neq in Hn. rewrite Hn in Hsrv.
    unfold Venue.gen_page, bind, _fetch_data, lift.
    fold (plain_request (<["page" := PVal (PyInt n)]> p) false false).
    now rewrite Hsrv.
  - exact Hcls.
Qed.

Lemma X5_witness :
  let api :=
    Stub.api false (fun _ => Ok (Some {| totalPages := Missing; children := ["e"] |})) in
  fst (Depaginate.call api (LibraryTracks Stub.rj_library None) None Stub.start)
  = Err (KeyError "totalPages").
Proof.
  intros api.
  destruct (X5_answer_without_total_pages api
              (Some {| totalPages := Missing; children := ["e"] |})
              (KeyError "totalPages") eq_refl) as [H _].
  eapply H; reflexivity.
Defined.

(** ** The pages of a venue's past events *)

Section VenueListing.

Variable api : Api.
Variable p : params.

Lemma venue_later_page n s :
  n ≠ 1 →
  Depaginate.later_page api (VenueGen p) n s
  = (match server api (venue_request p n) with
     | Ok (Some d) => Ok (Some (map (Built "Event") (children d)))
     | Ok None => Err AttributeError
     | Err e => Err e
     end, log_fetch [venue_request p n] s).
Proof.
  intros Hn. apply Z.eqb_neq in Hn.
  unfold venue_request. rewrite Hn.
  unfold Depaginate.later_page, Venue.gen_page, Venue.gen2, findall, bind, _fetch_data,
    lift, ret, plain_request.
  now destruct (server api _) as [[d|]|].
Qed.

Lemma venue_first_page s :
  Depaginate.first_page api (VenueGen p) s
  = (match server api (venue_request p 1) with
     | Ok data =>
         match total_pages data, data with
         | Ok t, Some d => Ok (Some (t, map (Built "Event") (children d)))
         | Ok _, None => Err AttributeError
         | Err e, _ => Err e
         end
     | Err e => Err e
     end, log_fetch [venue_request p 1] s).
Proof.
  unfold venue_request. cbn [Z.eqb Pos.eqb].
  unfold Depaginate.first_page, Venue.gen_first, Venue.gen2, findall, bind, _fetch_data,
    lift, ret, plain_request.
  destruct (server api _) as [[d|]|]; [|reflexivity..].
  now destruct (total_pages (Some d)).
Qed.

Lemma last_cons_some {A} (x j : A) l : last l = Some j → last (x :: l) = Some j.
Proof. intros H. now rewrite last_cons, H. Qed.

(** From the second page on: the pages not yet fetched are fetched in
    their order, each once, up to where the calls stop. *)
Lemma venue_calls_from : ∀ n buf pages s items ended st s',
  Forall (fun j => j ≠ 1) pages →
  next_calls api (VenueGen p) n (FetchingPage buf pages) s = (items, ended, st, s') →
  ∃ fetched,
    fetched `prefix_of` pages ∧
    s' = log_fetch (map (venue_request p) fetched) s ∧
    items `prefix_of` (buf ++ concat (map (page_items api p) fetched))%list ∧
    match ended with
    | None => length items = n
    | Some None =>
        fetched = pages ∧
        items = (buf ++ concat (map (page_items api p) fetched))%list ∧
        Forall (fun j => ∃ d, server api (venue_request p j) = Ok (Some d)) fetched
    | Some (Some e) =>
        ∃ j, last fetched = Some j ∧ j ≠ 1 ∧
             (server api (venue_request p j) = Err e ∨
              server api (venue_request p j) = Ok None ∧ e = AttributeError)
    end.
Proof.
  induction n as [|n IH].
  - intros buf pages s items ended st s' _ [= <- <- <- <-].
    exists []. split; [apply prefix_nil|]. split; [now rewrite log_fetch_nil|].
    split; [apply prefix_nil|reflexivity].
  - intros [|x xs].
    + induction pages as [|j rest IHp]; intros s items ended st s' Hne.
      * intros [= <- <- <- <-]. exists [].
        split; [reflexivity|]. split; [now rewrite log_fetch_nil|].
        split; [apply prefix_nil|]. now repeat split.
      * apply Forall_cons in Hne as [Hj Hrest].
        cbn [next_calls Depaginate.next Depaginate.advance Depaginate.refill].
        rewrite (venue_later_page j s Hj).
        destruct (server api (venue_request p j)) as [[d|]|e] eqn:Hsrv.
        -- assert (Hpj : page_items api p j = map (Built "Event") (children d)).
           { unfold page_items. now rewrite Hsrv. }
           destruct (map (Built "Event") (children d)) as [|y ys] eqn:Hd.
           ++ intros H.
              destruct (IHp (log_fetch [venue_request p j] s) items ended st s' Hrest H)
                as (fetched & Hpre & -> & Hitems & Hend).
              exists (j :: fetched).
              split; [now apply prefix_cons|].
              split; [now rewrite log_fetch_app|].
              cbn [map concat]. rewrite Hpj. cbn [app] in *.
              split; [exact Hitems|].
              destruct ended as [[e|]|].
              ** destruct Hend as (j' & Hlast & He). exists j'.
                 split; [now apply last_cons_some|exact He].
              ** destruct Hend as (-> & -> & Hall). repeat split.
                 apply Forall_cons. split; [now exists d|exact Hall].
              ** exact Hend.
           ++ destruct (next_calls api (VenueGen p) n (FetchingPage ys rest)
                          (log_fetch [venue_request p j] s))
                as [[[items' ended'] st''] s''] eqn:Hrec.
              intros [= <- <- <- <-].
              destruct (IH ys rest _ _ _ _ _ Hrest Hrec)
                as (fetched & Hpre & -> & Hitems & Hend).
              exists (j :: fetched).
              split; [now apply prefix_cons|].
              split; [now rewrite log_fetch_app|].
              cbn [map concat]. rewrite Hpj. cbn [app] in *.
              split; [now apply prefix_cons|].
              destruct ended' as [[e|]|].
              ** destruct Hend as (j' & Hlast & He). exists j'.
                 split; [now apply last_cons_some|exact He].
              ** destruct Hend as (-> & -> & Hall). repeat split.
                 apply Forall_cons. split; [now exists d|exact Hall].
              ** cbn. now rewrite Hend.
        -- intros [= <- <- <- <-]. exists [j].
           split; [apply prefix_cons, prefix_nil|]. split; [reflexivity|].
           split; [apply prefix_nil|]. exists j. split; [reflexivity|].
           split; [exact Hj|]. now right.
        -- intros [= <- <- <- <-]. exists [j].
           split; [apply prefix_cons, prefix_nil|]. split; [reflexivity|].
           split; [apply prefix_nil|]. exists j. split; [reflexivity|].
           split; [exact Hj|]. now left.
    + intros pages s items ended st s' Hne.
      cbn [next_calls Depaginate.next Depaginate.advance].
      destruct (next_calls api (VenueGen p) n (FetchingPage xs pages) s)
        as [[[items' ended'] st''] s''] eqn:Hrec.
      intros [= <- <- <- <-].
      destruct (IH xs pages _ _ _ _ _ Hne Hrec) as (fetched & Hpre & -> & Hitems & Hend).
      exists fetched. split; [exact Hpre|]. split; [reflexivity|].
      cbn [app]. split; [now apply prefix_cons|].
      destruct ended' as [[e|]|].
      * exact Hend.
      * destruct Hend as (-> & -> & Hall). now repeat split.
      * cbn. now rewrite Hend.
Qed.

End VenueListing.

(** X6: the requests of a venue's past events, for every answer of the
    service as far as the generator reads it (the container, its
    [totalPages], its records; making an [Event] of a record is the
    business of [lastfm/event.py]).  After any number of calls of
    [next()] on the generator of [Venue.get_past_events], the requests
    sent are those of pages 1, 2, ..., k in this order, each once, and no
    page beyond the count the first answer announced (so one request
    when it announces 1, 0 or less); nothing is posted, no attribute and
    no lazy list is touched; the events yielded are the events of these
    pages in page order, up to where the calls stopped.  When the
    generator ends, every page up to the announced count was fetched and
    answered with a container, and all their events were yielded.  When
    it raises, the error comes from the last page requested: it is the
    error of that request; or that of reading the page count from the
    first answer ([AttributeError] without a container, [KeyError]
    without the attribute, [ValueError] when it is no number, see X5);
    or the [AttributeError] of a later answer without a container. *)
Theorem X6_venue_pages_in_order (api : Api) (p : params) (n : nat) (s : State)
    (items : list item) (ended : option (option error)) (st : pager_state) (s' : State) :
  next_calls api (VenueGen p) n Init s = (items, ended, st, s') →
  ∃ pages,
    pages `prefix_of` seqZ 1 (Z.max 1 (announced api p)) ∧
    fetch_log s' = (fetch_log s ++ map (venue_request p) pages)%list ∧
    post_log s' = post_log s ∧ attrs s' = attrs s ∧ heap s' = heap s ∧
    items `prefix_of` concat (map (page_items api p) pages) ∧
    match ended with
    | None => length items = n
    | Some None =>
        pages = seqZ 1 (Z.max 1 (announced api p)) ∧
        items = concat (map (page_items api p) pages) ∧
        Forall (fun j => ∃ d, server api (venue_request p j) = Ok (Some d)) pages
    | Some (Some e) =>
        ∃ j, last pages = Some j ∧
             (server api (venue_request p j) = Err e ∨
              ∃ data, server api (venue_request p j) = Ok data ∧
                      (j = 1 ∧ total_pages data = Err e ∨
                       j ≠ 1 ∧ data = None ∧ e = AttributeError))
    end.
Proof.
  destruct n as [|n].
  { intros [= <- <- <- <-]. exists [].
    split; [apply prefix_nil|]. split; [cbn; now rewrite app_nil_r|].
    repeat split. apply prefix_nil. }
  assert (Hone : [1] `prefix_of` seqZ 1 (Z.max 1 (announced api p))).
  { rewrite seqZ_cons by lia. apply prefix_cons, prefix_nil. }
  cbn [next_calls Depaginate.next]. rewrite venue_first_page.
  destruct (server api (venue_request p 1)) as [data|e] eqn:Hsrv.
  2:{ intros [= <- <- <- <-]. exists [1].
      split; [exact Hone|]. repeat split. { apply prefix_nil. }
      exists 1. split; [reflexivity|now left]. }
  destruct (total_pages data) as [t|e] eqn:Ht.
  2:{ intros [= <- <- <- <-]. exists [1].
      split; [exact Hone|]. repeat split. { apply prefix_nil. }
      exists 1. split; [reflexivity|]. right. exists data. split; [exact Hsrv|].
      now left. }
  destruct data as [d|]; [|discriminate Ht].
  intros H.
  assert (Hann : announced api p = t). { unfold announced. now rewrite Hsrv, Ht. }
  assert (Hitems1 : page_items api p 1 = map (Built "Event") (children d)).
  { unfold page_items. now rewrite Hsrv. }
  assert (Hall : seqZ 1 (Z.max 1 t) = 1 :: xrange 2 (t + 1)).
  { rewrite seqZ_cons by lia. f_equal. unfold xrange.
    destruct (Z.le_gt_cases t 1).
    - rewrite !seqZ_nil by lia. reflexivity.
    - f_equal. lia. }
  assert (Hne : Forall (fun j => j ≠ 1) (xrange 2 (t + 1))).
  { unfold xrange. apply Forall_seqZ. intros j Hj. lia. }
  change (next_calls api (VenueGen p) (S n)
            (FetchingPage (map (Built "Event") (children d)) (xrange 2 (t + 1)))
            (log_fetch [venue_request p 1] s) = (items, ended, st, s')) in H.
  destruct (venue_calls_from api p _ _ _ _ _ _ _ _ Hne H)
    as (fetched & Hpre & -> & Hitems & Hend).
  exists (1 :: fetched). rewrite Hann, Hall.
  split; [now apply prefix_cons|].
  split; [cbn; now rewrite <- app_assoc|].
  repeat split.
  { cbn [map concat]. now rewrite Hitems1. }
  destruct ended as [[e|]|].
  - destruct Hend as (j & Hlast & Hj & He). exists j.
    split; [now apply last_cons_some|].
    destruct He as [He | [He ->]]; [now left|].
    right. exists None. split; [exact He|]. now right.
  - destruct Hend as (-> & -> & Hok). cbn [map concat]. rewrite Hitems1.
    repeat split. apply Forall_cons. split; [now exists d|exact Hok].
  - exact Hend.
Qed.

Lemma X6_witness :
  let api := Stub.api false (Stub.paged 3 2) in
  let p : params := {["method" := str "venue.getPastEvents"]} in
  ∃ pages,
    pages = seqZ 1 (Z.max 1 (announced api p)) ∧
    map (Built "Event") ["1-a"; "1-b"; "2-a"; "2-b"; "3-a"; "3-b"]
    = concat (map (page_items api p) pages).
Proof.
  intros api p.
  assert (E : next_calls api (VenueGen p) 10 Init Stub.start
              = (map (Built "Event") ["1-a"; "1-b"; "2-a"; "2-b"; "3-a"; "3-b"],
                 Some None, Exhausted,
                 log_fetch (map (venue_request p) [1; 2; 3]) Stub.start))
    by (vm_compute; reflexivity).
  destruct (X6_venue_pages_in_order api p 10 Stub.start _ _ _ _ E)
    as (pages & _ & _ & _ & _ & _ & _ & Hall & Hitems & _).
  exists pages. now split.
Defined.

(** ** The mutating operations, as written *)

Section Mutations.

Variable api : Api.

Lemma post_then_reset prm ob name s :
  (do _post_data api prm then setattr ob name None) s
  = match post_server api prm with
    | Ok _ => (Ok tt, set_attrs (<[(ob, name) := None]> (attrs s)) (log_post prm s))
    | Err e => (Err e, log_post prm s)
    end.
Proof.
  unfold bind, _post_data, setattr. now destruct (post_server api prm) as [[]|].
Qed.

(** What the branches of [add_track] and [add_album] make of their
    arguments: the parameters to post, after the requests of the search
    when there is one. *)
Lemma work_params_state {W} key (name_of : W → option value) artist_of
    (srch : value → list request * outcome (list W)) x art prm s :
  snd (work_params key name_of artist_of (fun v => helper (srch v)) x art prm s)
  = log_fetch (match x, art with inr v, None => fst (srch v) | _, _ => [] end) s.
Proof.
  destruct x as [w|v]; [cbn; now rewrite log_fetch_nil|].
  destruct art as [a|]; [cbn; now rewrite log_fetch_nil|].
  unfold work_params, bind, helper, lift, ret.
  destruct (snd (srch v)) as [[|w ws]|e]; reflexivity.
Qed.

Lemma work_params_method {W} key (name_of : W → option value) artist_of
    (srch : value → M (list W)) x art prm prm' s s' :
  key ≠ "method" →
  work_params key name_of artist_of srch x art prm s = (Ok prm', s') →
  prm' !! "method" = prm !! "method".
Proof.
  intros Hkey. unfold work_params, bind, lift, ret.
  destruct x as [w|v].
  - intros [= <- <-]. now rewrite !lookup_insert_ne.
  - destruct art as [a|].
    + intros [= <- <-]. now rewrite !lookup_insert_ne.
    + destruct (srch v s) as [[[|w ws]|e] s1]; intros [= <- <-].
      now rewrite !lookup_insert_ne.
Qed.

End Mutations.

(** X7: what a mutating operation does when it runs ([create_playlist],
    [Playlist.add_track], [Library.add_album], [add_artist], [add_track]).
    It posts once at most, under its own method, and resets its cached
    property only after the post went through: when the operation fails,
    every attribute is as before and the error is the one of the post,
    or nothing was posted at all.  It never touches a lazy list, and the
    only requests it sends are those of the search for a work given by
    name. *)
Theorem X7_mutation_outcomes (api : Api) (m : mutation) (s : State) :
  let r := fst (mutate_body api m s) in
  let s' := snd (mutate_body api m s) in
  heap s' = heap s ∧
  fetch_log s' = (fetch_log s ++ lookup_requests api m)%list ∧
  (r = Ok tt →
     ∃ prm, post_log s' = (post_log s ++ [prm])%list ∧
            post_server api prm = Ok tt ∧
            prm !! "method" = Some (str (post_method m)) ∧
            attrs s' = <[slot (mutated_instance m) (invalidated m) := None]> (attrs s)) ∧
  (∀ e, r = Err e →
     attrs s' = attrs s ∧
     (post_log s' = post_log s ∨
      ∃ prm, post_log s' = (post_log s ++ [prm])%list ∧ post_server api prm = Err e)).
Proof.
  assert (Hpost : ∀ prm ob name s0,
            let r := fst ((do _post_data api prm then setattr ob (String "_" name) None) s0) in
            let s' := snd ((do _post_data api prm then setattr ob (String "_" name) None) s0) in
            heap s' = heap s0 ∧ fetch_log s' = fetch_log s0 ∧
            post_log s' = (post_log s0 ++ [prm])%list ∧
            (r = Ok tt → post_server api prm = Ok tt ∧
                         attrs s' = <[slot ob name := None]> (attrs s0)) ∧
            (∀ e, r = Err e → attrs s' = attrs s0 ∧ post_server api prm = Err e)).
  { intros prm ob name s0. cbn zeta. rewrite post_then_reset.
    destruct (post_server api prm) as [[]|e0]; cbn; repeat split; congruence. }
  assert (Hwork : ∀ W key (name_of : W → option value) artist_of
                    (srch : value → list request * outcome (list W)) x art prm ob name,
            key ≠ "method" →
            let op := let* q := work_params key name_of artist_of
                                  (fun v => helper (srch v)) x art prm in
                      do _post_data api q then setattr ob (String "_" name) None in
            let reqs := match x, art with inr v, None => fst (srch v) | _, _ => [] end in
            heap (snd (op s)) = heap s ∧
            fetch_log (snd (op s)) = (fetch_log s ++ reqs)%list ∧
            (fst (op s) = Ok tt →
               ∃ q, post_log (snd (op s)) = (post_log s ++ [q])%list ∧
                    post_server api q = Ok tt ∧
                    q !! "method" = prm !! "method" ∧
                    attrs (snd (op s)) = <[slot ob name := None]> (attrs s)) ∧
            (∀ e, fst (op s) = Err e →
               attrs (snd (op s)) = attrs s ∧
               (post_log (snd (op s)) = post_log s ∨
                ∃ q, post_log (snd (op s)) = (post_log s ++ [q])%list ∧
                     post_server api q = Err e))).
  { intros W key name_of artist_of srch x art prm ob name Hkey. cbn zeta.
    pose proof (work_params_state key name_of artist_of srch x art prm s) as Hst.
    set (reqs := match x, art with inr v, None => fst (srch v) | _, _ => [] end) in *.
    set (post := fun q => do _post_data api q then setattr ob (String "_" name) None).
    unfold bind.
    destruct (work_params key name_of artist_of (fun v => helper (srch v)) x art prm s)
      as [[q|e0] s1] eqn:Hw; cbn [snd] in Hst; subst s1.
    - destruct (Hpost q ob name (log_fetch reqs s)) as (Hh & Hf & Hp & Hok & Herr).
      fold (post q) in Hh, Hf, Hp, Hok, Herr.
      destruct (post q (log_fetch reqs s)) as [r1 s1]. cbn [fst snd] in *.
      change (heap (log_fetch reqs s)) with (heap s) in Hh.
      change (fetch_log (log_fetch reqs s)) with (fetch_log s ++ reqs)%list in Hf.
      change (post_log (log_fetch reqs s)) with (post_log s) in Hp.
      change (attrs (log_fetch reqs s)) with (attrs s) in Hok, Herr.
      split; [exact Hh|]. split; [exact Hf|]. split.
      + intros Hr. destruct (Hok Hr) as [Hsrv Hattrs].
        exists q. split; [exact Hp|]. split; [exact Hsrv|].
        split; [exact (work_params_method _ _ _ _ _ _ _ _ _ _ Hkey Hw)|exact Hattrs].
      + intros e Hr. destruct (Herr e Hr) as [Hattrs Hsrv].
        split; [exact Hattrs|]. right. exists q. now split.
    - cbn [fst snd].
      change (heap (log_fetch reqs s)) with (heap s).
      change (fetch_log (log_fetch reqs s)) with (fetch_log s ++ reqs)%list.
      change (post_log (log_fetch reqs s)) with (post_log s).
      change (attrs (log_fetch reqs s)) with (attrs s).
      split; [reflexivity|]. split; [reflexivity|]. split; [discriminate|].
      intros e _. split; [reflexivity|now left]. }
  destruct m as [self title description|self trk art|self alb art|self art|self trk art];
    cbn [mutate_body post_method mutated_instance invalidated lookup_requests].
  - unfold User.create_playlist.
    destruct (Hpost (update_opt "description" description
                       {["method" := str "playlist.create"; "title" := PVal title]})
                (user_oid self) "playlists" s) as (Hh & Hf & Hp & Hok & Herr).
    cbn zeta. split; [exact Hh|]. split; [now rewrite Hf, app_nil_r|]. split.
    + intros Hr. destruct (Hok Hr) as [Hsrv Hattrs]. eexists.
      split; [exact Hp|]. split; [exact Hsrv|]. split; [|exact Hattrs].
      destruct description; reflexivity.
    + intros e Hr. destruct (Herr e Hr) as [Hattrs Hsrv].
      split; [exact Hattrs|]. right. eexists. split; [exact Hp|exact Hsrv].
  - destruct (Hwork track "track" track_name track_artist (track_search api) trk art
                {["method" := str "playlist.addTrack";
                  "playlistID" := of_opt (User.Playlist.id self)]}
                (playlist_oid self) "data" ltac:(discriminate))
      as (Hh & Hf & Hok & Herr).
    cbn zeta. split; [exact Hh|]. split.
    { etransitivity; [exact Hf|]. now destruct trk, art. }
    split; [|exact Herr].
    intros Hr. destruct (Hok Hr) as (q & H1 & H2 & H3 & H4). exists q.
    now rewrite H3.
  - destruct (Hwork album "album" album_name album_artist (album_search api) alb art
                {["method" := str "library.addAlbum"]}
                (library_oid self) "albums" ltac:(discriminate))
      as (Hh & Hf & Hok & Herr).
    cbn zeta. split; [exact Hh|]. split.
    { etransitivity; [exact Hf|]. now destruct alb, art. }
    split; [|exact Herr].
    intros Hr. destruct (Hok Hr) as (q & H1 & H2 & H3 & H4). exists q.
    now rewrite H3.
  - unfold User.Library.add_artist.
    match goal with
    | |- context [_post_data api ?q] =>
        destruct (Hpost q (library_oid self) "artists" s) as (Hh & Hf & Hp & Hok & Herr)
    end.
    cbn zeta. split; [exact Hh|]. split; [now rewrite Hf, app_nil_r|]. split.
    + intros Hr. destruct (Hok Hr) as [Hsrv Hattrs]. eexists.
      split; [exact Hp|]. split; [exact Hsrv|]. split; [reflexivity|exact Hattrs].
    + intros e Hr. destruct (Herr e Hr) as [Hattrs Hsrv].
      split; [exact Hattrs|]. right. eexists. split; [exact Hp|exact Hsrv].
  - destruct (Hwork track "track" track_name track_artist (track_search api) trk art
                {["method" := str "library.addTrack"]}
                (library_oid self) "tracks" ltac:(discriminate))
      as (Hh & Hf & Hok & Herr).
    cbn zeta. split; [exact Hh|]. split.
    { etransitivity; [exact Hf|]. now destruct trk, art. }
    split; [|exact Herr].
    intros Hr. destruct (Hok Hr) as (q & H1 & H2 & H3 & H4). exists q.
    now rewrite H3.
Qed.

(** ** Naming the work to add *)

Section NamingWorks.

Variable api : Api.
Context {W : Type}.
Variables (key : string) (name_of : W → option value) (artist_of : W → artist).
Variable srch : value → list request * outcome (list W).
Variables (prm : params) (ob : nat) (attr : string).

Lemma add_work_by_name v s :
  add_work api key name_of artist_of srch prm ob attr (inr v) None s
  = with_first_hit (srch v)
      (fun w => add_work api key name_of artist_of srch prm ob attr (inl w) None) s.
Proof.
  unfold add_work, with_first_hit, work_params, bind, helper, lift, ret.
  destruct (snd (srch v)) as [[|w ws]|e]; reflexivity.
Qed.

Lemma add_work_names_agree :
  key ≠ "artist" →
  names_agree (add_work api key name_of artist_of srch prm ob attr) name_of artist_of.
Proof.
  intros Hkey. unfold names_agree, add_work.
  split; [reflexivity|]. split; [|split].
  - intros w n s Hn Ha. unfold work_params, artist_param, bind, ret.
    now rewrite Hn, Ha.
  - intros v a an s Ha Ht. unfold work_params, artist_param, bind, ret.
    now rewrite Ha, Ht.
  - intros v a s Ha. unfold work_params, artist_param, bind, ret, _post_data, setattr.
    rewrite Ha. eexists. split.
    + now destruct (post_server api _) as [[]|].
    + rewrite lookup_insert_ne by (intros E; now apply Hkey). apply lookup_insert_eq.
Qed.

End NamingWorks.

(** X8: adding a work by its name alone adds the first hit of a search
    for that name: the call is the one with that hit as the work, made
    after the requests of the search.  With no hit it raises [IndexError],
    a failing search raises its error, and in both cases nothing is
    posted. *)
Theorem X8_add_by_name_adds_first_hit (api : Api) (pl : playlist) (lib : library)
    (v : value) (s : State) :
  User.Playlist.add_track api pl (inr v) None s
  = with_first_hit (track_search api v)
      (fun t => User.Playlist.add_track api pl (inl t) None) s ∧
  User.Library.add_track api lib (inr v) None s
  = with_first_hit (track_search api v)
      (fun t => User.Library.add_track api lib (inl t) None) s ∧
  User.Library.add_album api lib (inr v) None s
  = with_first_hit (album_search api v)
      (fun a => User.Library.add_album api lib (inl a) None) s ∧
  (∀ W (h : list request * outcome (list W)) (k : W → M unit),
     (∀ w ws, snd h ≠ Ok (w :: ws)) →
     post_log (snd (with_first_hit h k s)) = post_log s ∧
     attrs (snd (with_first_hit h k s)) = attrs s).
Proof.
  split; [|split; [|split]].
  - apply (add_work_by_name api "track" track_name track_artist (track_search api)).
  - apply (add_work_by_name api "track" track_name track_artist (track_search api)).
  - apply (add_work_by_name api "album" album_name album_artist (album_search api)).
  - intros W h k Hno. unfold with_first_hit.
    destruct (snd h) as [[|w ws]|e]; try (now split).
    now destruct (Hno w ws).
Qed.

(** X9: the ways of naming a work to [Playlist.add_track],
    [Library.add_track] and [Library.add_album] that come to the same
    call.  Given the work itself, the [artist] argument is ignored; a
    work with a name, by an artist with a name, can as well be given by
    its name and its artist; an artist with a name can as well be given
    by that name.  An artist without a name (missing or empty) is not
    posted by name but as the object. *)
Theorem X9_naming_a_work (api : Api) (pl : playlist) (lib : library) :
  names_agree (User.Playlist.add_track api pl) track_name track_artist ∧
  names_agree (User.Library.add_track api lib) track_name track_artist ∧
  names_agree (User.Library.add_album api lib) album_name album_artist.
Proof.
  split; [|split].
  - apply (add_work_names_agree api "track" track_name track_artist (track_search api)).
    discriminate.
  - apply (add_work_names_agree api "track" track_name track_artist (track_search api)).
    discriminate.
  - apply (add_work_names_agree api "album" album_name album_artist (album_search api)).
    discriminate.
Qed.

(** ** One step of a week-by-week chart list *)

(** Asking for the chart of a week sends the requests of that week and
    does nothing else. *)
Lemma chart_state api self k wc s :
  snd (User.get_chart_of_kind api self k (week_start wc) (week_end wc) s)
  = log_fetch (week_requests api self k wc) s.
Proof.
  unfold week_requests.
  destruct k; cbn;
    unfold User.get_weekly_album_chart, User.get_weekly_artist_chart,
      User.get_weekly_track_chart, User.get_weekly_tag_chart, User.get_weekly_chart,
      bind, lift, ret, _fetch_data, helper;
    repeat (case_match; simplify_eq; cbn in * );
    rewrite ?log_fetch_nil; reflexivity.
Qed.

Lemma week_requests_one api self k wc :
  k ≠ TagChart → (length (week_requests api self k wc) ≤ 1)%nat.
Proof.
  intros Hk. unfold week_requests.
  destruct k; try contradiction; cbn;
    unfold User.get_weekly_album_chart, User.get_weekly_artist_chart,
      User.get_weekly_track_chart, User.get_weekly_chart,
      bind, lift, ret, _fetch_data;
    repeat (case_match; simplify_eq; cbn in * ); lia.
Qed.

(** X10: one [next()] on the generator of a week-by-week chart list
    ([weekly_album_chart_list] and its three siblings).  The weeks are
    tried in their order, each once; the weeks that fail with an error
    of the library are passed over; the first week that does not gives
    the chart that is yielded, and the weeks after it are left for the
    next call.  The list ends when every remaining week failed that way.
    An error that is not the library's (a [KeyError], say) is not passed
    over: it is raised, and the generator is finished.  The requests
    sent are those of the weeks tried, in their order and once for each
    week, and none for a week after the one that yielded or raised; a
    week of an album, artist or track chart is one request at most.
    Nothing is posted, no attribute and no lazy list is touched. *)
Theorem X10_weekly_next (api : Api) (k : chart_kind) (self : user) (todo : list item)
    (s : State) (r : step) (rest : list item) (s' : State) :
  weekly_next api k self todo s = (r, rest, s') →
  ∃ skipped tried,
    Forall (fun wc => ∃ e, week_outcome api self k wc = Err e ∧ is_LastfmError e = true)
      skipped ∧
    fetch_log s' = (fetch_log s ++ concat (map (week_requests api self k) tried))%list ∧
    (k ≠ TagChart → Forall (fun wc => (length (week_requests api self k wc) ≤ 1)%nat) tried) ∧
    post_log s' = post_log s ∧ attrs s' = attrs s ∧ heap s' = heap s ∧
    match r with
    | Yield c =>
        ∃ wc, todo = (skipped ++ wc :: rest)%list ∧ tried = (skipped ++ [wc])%list ∧
              week_outcome api self k wc = Ok c
    | StopIteration => todo = skipped ∧ tried = skipped ∧ rest = []
    | Raise e =>
        ∃ wc later, todo = (skipped ++ wc :: later)%list ∧ tried = (skipped ++ [wc])%list ∧
                    rest = [] ∧
                    week_outcome api self k wc = Err e ∧ is_LastfmError e = false
    end.
Proof.
  intros H.
  assert (Hmain : ∃ skipped tried,
             Forall (fun wc => ∃ e, week_outcome api self k wc = Err e ∧
                                    is_LastfmError e = true) skipped ∧
             s' = log_fetch (concat (map (week_requests api self k) tried)) s ∧
             match r with
             | Yield c =>
                 ∃ wc, todo = (skipped ++ wc :: rest)%list ∧
                       tried = (skipped ++ [wc])%list ∧
                       week_outcome api self k wc = Ok c
             | StopIteration => todo = skipped ∧ tried = skipped ∧ rest = []
             | Raise e =>
                 ∃ wc later, todo = (skipped ++ wc :: later)%list ∧
                             tried = (skipped ++ [wc])%list ∧ rest = [] ∧
                             week_outcome api self k wc = Err e ∧
                             is_LastfmError e = false
             end).
  { revert s H. induction todo as [|wc todo IH]; intros s.
    - intros [= <- <- <-]. exists [], []. split; [constructor|].
      split; [now rewrite log_fetch_nil|]. now repeat split.
    - cbn [weekly_next].
      pose proof (week_outcome_any_state api self k wc s) as Hout.
      pose proof (chart_state api self k wc s) as Hst.
      destruct (User.get_chart_of_kind api self k (week_start wc) (week_end wc) s)
        as [[c|e] s1]; cbn [fst snd] in Hout, Hst; subst s1.
      + intros [= <- <- <-]. exists [], [wc]. split; [constructor|].
        split; [cbn; now rewrite app_nil_r|]. now exists wc.
      + destruct (is_LastfmError e) eqn:Hl.
        * intros H. destruct (IH _ H) as (skipped & tried & Hsk & -> & Hr).
          exists (wc :: skipped), (wc :: tried).
          split; [constructor; [now exists e|exact Hsk]|].
          split; [cbn [map concat]; now rewrite log_fetch_app|].
          destruct r as [c| |e'].
          -- destruct Hr as (wc' & -> & -> & Hc). now exists wc'.
          -- destruct Hr as (-> & -> & ->). now repeat split.
          -- destruct Hr as (wc' & later & -> & -> & -> & He & Hl').
             now exists wc', later.
        * intros [= <- <- <-]. exists [], [wc]. split; [constructor|].
          split; [cbn; now rewrite app_nil_r|]. now exists wc, todo. }
  destruct Hmain as (skipped & tried & Hsk & -> & Hr).
  exists skipped, tried. split; [exact Hsk|]. split; [reflexivity|].
  split.
  { intros Hk. apply Forall_forall. intros wc _. now apply week_requests_one. }
  split; [reflexivity|]. split; [reflexivity|]. split; [reflexivity|]. exact Hr.
Qed.

Lemma X10_witness :
  let week w := Week (Some (PyStr w)) (Some (PyStr w)) in
  let todo := [week "w3"; week "w4"; week "w5"] in
  ∃ skipped tried wc,
    todo = (skipped ++ wc :: [week "w5"])%list ∧ tried = (skipped ++ [wc])%list ∧
    week_outcome Stub.weekly_api Stub.rj AlbumChart wc
    = Ok (Chart "WeeklyAlbumChart" (Some {| totalPages := Missing; children := ["w4"] |})) ∧
    fetch_log (snd (weekly_next Stub.weekly_api AlbumChart Stub.rj todo Stub.start))
    = concat (map (week_requests Stub.weekly_api Stub.rj AlbumChart) tried).
Proof.
  intros week todo.
  assert (E : weekly_next Stub.weekly_api AlbumChart Stub.rj todo Stub.start
              = (Yield (Chart "WeeklyAlbumChart"
                          (Some {| totalPages := Missing; children := ["w4"] |})),
                 [week "w5"],
                 snd (weekly_next Stub.weekly_api AlbumChart Stub.rj todo Stub.start)))
    by (vm_compute; reflexivity).
  destruct (X10_weekly_next _ _ _ _ _ _ _ _ E)
    as (skipped & tried & _ & Hlog & _ & _ & _ & _ & wc & Htodo & Htried & Hout).
  exists skipped, tried, wc.
  split; [exact Htodo|]. split; [exact Htried|]. split; [exact Hout|exact Hlog].
Defined.

(** ** Asking a venue for its past events *)

(** X11: [Venue.get_past_events] on a venue with an id sends nothing: it
    makes a new lazy list, which no other list is changed by, and whose
    generator has not started.  Every request that generator sends (see
    X6) carries the method, the id of the venue, the limit when one was
    given, the page number on every page after the first, and no other
    parameter. *)
Theorem X11_venue_past_events_call (api : Api) (v : venue) (limit : option value)
    (s : State) (i : value) :
  Venue.id v = Some i → Py.truthy (Some i) = true →
  ∃ p,
    Venue.get_past_events api v limit s
    = (Ok (length (heap s)),
       set_heap (heap s ++ [{| seen := []; gen := Paged (VenueGen p) Init |}]) s) ∧
    ∀ j, let q := req_params (venue_request p j) in
         q !! "method" = Some (str "venue.getPastEvents") ∧
         q !! "venue" = Some (PVal i) ∧
         q !! "limit" = PVal <$> limit ∧
         q !! "page" = (if j =? 1 then None else Some (PVal (PyInt j))) ∧
         ∀ key, key ∉ ["method"; "venue"; "limit"; "page"] → q !! key = None.
Proof.
  intros Hid Ht.
  unfold Venue.get_past_events, Venue._default_params, bind, lift, new_lazylist.
  rewrite Hid, Ht. cbn [negb of_opt]. eexists. split; [reflexivity|].
  intros j. cbn zeta. unfold venue_request, plain_request. cbn [req_params].
  set (base := ({["method" := str "venue.getPastEvents"]} ∪ {["venue" := PVal i]} : params)).
  assert (Hbase : ∀ key,
             base !! key
             = if decide (key = "method") then Some (str "venue.getPastEvents")
               else if decide (key = "venue") then Some (PVal i)
               else None).
  { intros key. unfold base.
    destruct (decide (key = "method")) as [->|Hm].
    - apply lookup_union_Some_l, lookup_singleton_eq.
    - rewrite lookup_union_r by now apply lookup_singleton_ne.
      destruct (decide (key = "venue")) as [->|Hv].
      + apply lookup_singleton_eq.
      + apply lookup_singleton_ne. congruence. }
  assert (Hp : ∀ key,
             update_opt "limit" limit base !! key
             = if decide (key = "limit") then PVal <$> limit else base !! key).
  { intros key. unfold update_opt.
    destruct (decide (key = "limit")) as [->|Hl].
    - destruct limit; [apply lookup_insert_eq|]. now rewrite Hbase.
    - destruct limit; [now rewrite lookup_insert_ne|reflexivity]. }
  assert (Hq : ∀ key, key ≠ "page" →
             (if j =? 1 then update_opt "limit" limit base
              else <["page" := PVal (PyInt j)]> (update_opt "limit" limit base)) !! key
             = update_opt "limit" limit base !! key).
  { intros key Hk. destruct (j =? 1); [reflexivity|]. now rewrite lookup_insert_ne. }
  split; [rewrite Hq, Hp, Hbase by discriminate; reflexivity|].
  split; [rewrite Hq, Hp, Hbase by discriminate; reflexivity|].
  split; [rewrite Hq, Hp by discriminate; reflexivity|].
  split.
  - destruct (j =? 1); [now rewrite Hp, Hbase|apply lookup_insert_eq].
  - intros key Hkey.
    assert (key ≠ "method" ∧ key ≠ "venue" ∧ key ≠ "limit" ∧ key ≠ "page")
      as (H1 & H2 & H3 & H4).
    { repeat split; intros ->; apply Hkey; set_solver. }
    rewrite Hq, Hp, Hbase by exact H4.
    now rewrite !decide_False by assumption.
Qed.

Lemma X11_witness :
  ∃ p, Venue.get_past_events (Stub.api false Stub.down) Stub.cargo (Some (PyInt 5)) Stub.start
       = (Ok 0%nat, set_heap [{| seen := []; gen := Paged (VenueGen p) Init |}] Stub.start) ∧
       req_params (venue_request p 2) !! "page" = Some (PVal (PyInt 2)).
Proof.
  destruct (X11_venue_past_events_call (Stub.api false Stub.down) Stub.cargo
              (Some (PyInt 5)) Stub.start (PyInt 8778545) eq_refl eq_refl)
    as (p & Hcall & Hreq).
  exists p. split; [exact Hcall|]. exact (proj1 (proj2 (proj2 (proj2 (Hreq 2))))).
Defined.
